(** * scan-backend.py: a shallow embedding of the upload/OMR orchestration layer

    The Flask application in [scan-backend.py] has two routes:
    [process_sheet_music] (POST /process) and [send_result]
    (GET /results/<path>).  Python [str] values are modelled as [string];
    the library functions the handlers call ([str.rsplit], [str.lower],
    [os.path.splitext], [os.path.join], [uuid.uuid4], [subprocess.run],
    [werkzeug.security.safe_join]) are modelled after their CPython /
    Werkzeug implementations, with [os.path] taken to be [posixpath]. *)

From Stdlib Require Import ZArith Ascii String List Lia Bool.
From Stdlib Require Import Strings.Byte.
From stdpp Require Import base gmap strings list.

Local Open Scope string_scope.
Local Open Scope list_scope.
Local Open Scope Z_scope.

(** Let [simpl] compute string concatenation on constructors. *)
Local Arguments String.append !_ _ / : simpl nomatch.

(** ** Python [str] primitives *)

Module PyStr.

(** [c in s] for a one-character needle. *)
Fixpoint contains (c : ascii) (s : string) : bool :=
  match s with
  | EmptyString => false
  | String a s' => if Ascii.eqb a c then true else contains c s'
  end.

(** Index of the last occurrence of [c], if any. *)
Fixpoint rfind_nat (c : ascii) (s : string) : option nat :=
  match s with
  | EmptyString => None
  | String a s' =>
      match rfind_nat c s' with
      | Some i => Some (S i)
      | None => if Ascii.eqb a c then Some O else None
      end
  end.

(** [s.rfind(c)]: the highest index of [c], or [-1]. *)
Definition rfind (c : ascii) (s : string) : Z :=
  match rfind_nat c s with
  | Some i => Z.of_nat i
  | None => -1
  end.

Fixpoint take (n : nat) (s : string) : string :=
  match n, s with
  | O, _ => EmptyString
  | S _, EmptyString => EmptyString
  | S n', String a s' => String a (take n' s')
  end.

Fixpoint drop (n : nat) (s : string) : string :=
  match n, s with
  | O, _ => s
  | S _, EmptyString => EmptyString
  | S n', String _ s' => drop n' s'
  end.

(** Python clamps a slice bound: a negative bound counts from the end. *)
Definition bound (i : Z) (s : string) : nat :=
  if i <? 0 then Z.to_nat (Z.of_nat (String.length s) + i) else Z.to_nat i.

(** [s[:i]] *)
Definition upto (i : Z) (s : string) : string := take (bound i s) s.

(** [s[i:]] *)
Definition from (i : Z) (s : string) : string := drop (bound i s) s.

(** [s[i:j]] *)
Definition slice (i j : Z) (s : string) : string :=
  take (bound j s - bound i s) (drop (bound i s) s).

(** [s.rsplit(c, 1)]: split once, at the last occurrence of [c]. *)
Definition rsplit1 (c : ascii) (s : string) : list string :=
  let i := rfind c s in
  if i <? 0 then [s] else [upto i s; from (i + 1) s].

(** [s.split(c)]: split at every occurrence of [c]. *)
Fixpoint split (c : ascii) (s : string) : list string :=
  match s with
  | EmptyString => [EmptyString]
  | String a s' =>
      if Ascii.eqb a c then EmptyString :: split c s'
      else match split c s' with
           | w :: ws => String a w :: ws
           | [] => [String a EmptyString]
           end
  end.

(** [sep.join(l)] *)
Fixpoint join (sep : string) (l : list string) : string :=
  match l with
  | [] => EmptyString
  | [x] => x
  | x :: l' => x +:+ sep +:+ join sep l'
  end.

(** [s.startswith(p)] *)
Fixpoint startswith (p s : string) : bool :=
  match p, s with
  | EmptyString, _ => true
  | String _ _, EmptyString => false
  | String a p', String b s' => Ascii.eqb a b && startswith p' s'
  end.

(** [s.endswith(c)] for a one-character suffix. *)
Fixpoint endswith (c : ascii) (s : string) : bool :=
  match s with
  | EmptyString => false
  | String a EmptyString => Ascii.eqb a c
  | String _ s' => endswith c s'
  end.

(** [str.lower] on one character: 'A'..'Z' go to 'a'..'z'.  Characters
    outside ASCII are left alone; no such character lowers to a letter
    of an allowed extension, so membership tests are unaffected. *)
Definition lower_char (a : ascii) : ascii :=
  let n := nat_of_ascii a in
  if ((65 <=? n) && (n <=? 90))%nat then ascii_of_nat (n + 32) else a.

(** [s.lower()] *)
Fixpoint lower (s : string) : string :=
  match s with
  | EmptyString => EmptyString
  | String a s' => String (lower_char a) (lower s')
  end.

End PyStr.

(** ** [os.path], as [posixpath] *)

Module PosixPath.

(** The loop of [genericpath._splitext] that skips leading dots: it
    runs while [filenameIndex < dotIndex], that is [n] more times. *)
Fixpoint _splitext_scan (p : string) (dotIndex filenameIndex : Z) (n : nat)
  : string * string :=
  match n with
  | O => (p, PyStr.upto 0 p)
  | S n' =>
      if negb (String.eqb (PyStr.slice filenameIndex (filenameIndex + 1) p) ".")
      then (PyStr.upto dotIndex p, PyStr.from dotIndex p)
      else _splitext_scan p dotIndex (filenameIndex + 1) n'
  end.

(** [genericpath._splitext(p, sep, altsep, extsep)] with [extsep = '.']. *)
Definition _splitext (p : string) (sep : ascii) (altsep : option ascii)
  : string * string :=
  let sepIndex := PyStr.rfind sep p in
  let sepIndex :=
    match altsep with
    | Some a => Z.max sepIndex (PyStr.rfind a p)
    | None => sepIndex
    end in
  let dotIndex := PyStr.rfind "." p in
  if sepIndex <? dotIndex then
    let filenameIndex := sepIndex + 1 in
    _splitext_scan p dotIndex filenameIndex (Z.to_nat (dotIndex - filenameIndex))
  else (p, PyStr.upto 0 p).

(** [posixpath.splitext] *)
Definition splitext (p : string) : string * string := _splitext p "/" None.

(** [ntpath.splitext], for comparison: same scan, two separators. *)
Definition nt_splitext (p : string) : string * string :=
  _splitext p "\" (Some "/"%char).

(** [posixpath.join(a, b)] *)
Definition join (a b : string) : string :=
  if PyStr.startswith "/" b then b
  else if String.eqb a "" || PyStr.endswith "/" a then a +:+ b
  else a +:+ "/" +:+ b.

(** [posixpath.isabs] *)
Definition isabs (s : string) : bool := PyStr.startswith "/" s.

(** The component loop of [posixpath.normpath]; [new_comps] is the
    list being built, appended to and popped at its end. *)
Fixpoint normpath_loop (initial_slashes : nat) (comps new_comps : list string)
  : list string :=
  match comps with
  | [] => new_comps
  | comp :: comps' =>
      if String.eqb comp "" || String.eqb comp "." then
        normpath_loop initial_slashes comps' new_comps
      else if negb (String.eqb comp "..")
              || (Nat.eqb initial_slashes 0 && bool_decide (new_comps = []))
              || bool_decide (last new_comps = Some "..")
      then normpath_loop initial_slashes comps' (new_comps ++ [comp])
      else normpath_loop initial_slashes comps' (removelast new_comps)
  end.

Definition initial_slashes (path : string) : nat :=
  if PyStr.startswith "/" path then
    if PyStr.startswith "//" path && negb (PyStr.startswith "///" path)
    then 2%nat else 1%nat
  else 0%nat.

(** [posixpath.normpath] *)
Definition normpath (path : string) : string :=
  if String.eqb path "" then "."
  else
    let n := initial_slashes path in
    let comps := normpath_loop n (PyStr.split "/" path) [] in
    let path := PyStr.join "/" comps in
    let path := PyStr.join "" (replicate n "/") +:+ path in
    if String.eqb path "" then "." else path.

End PosixPath.

(** ** Exceptions *)

(** The handler distinguishes [subprocess.CalledProcessError] from every
    other [Exception]; for the latter only [str(e)] is observed. *)
Inductive exn : Type :=
| CalledProcessError (returncode : Z) (cmd : list string) (stdout stderr : string)
| Exception (cls msg : string).

Inductive Outcome (A : Type) : Type :=
| Ok (a : A)
| Raise (e : exn).
Arguments Ok {A} a.
Arguments Raise {A} e.

(** [l[1]] on a Python list. *)
Definition index1 (l : list string) : Outcome string :=
  match l with
  | _ :: x :: _ => Ok x
  | _ => Raise (Exception "IndexError" "list index out of range")
  end.

(** ** [uuid.uuid4] *)

Module Uuid.

(** [int.from_bytes(b, 'big')] *)
Definition from_bytes (b : list byte) : Z :=
  fold_left (fun acc x => acc * 256 + Z.of_N (Byte.to_N x)) b 0.

(** [UUID(bytes=b, version=4).int]: the variant and version bits are
    overwritten, the other 122 bits are kept. *)
Definition uuid4_int (b : list byte) : Z :=
  let int := from_bytes b in
  let int := Z.land int (Z.lnot (Z.shiftl 0xc000 48)) in
  let int := Z.lor int (Z.shiftl 0x8000 48) in
  let int := Z.land int (Z.lnot (Z.shiftl 0xf000 64)) in
  let int := Z.lor int (Z.shiftl 4 76) in
  int.

Definition hex_digit (d : Z) : ascii :=
  if d <? 10 then ascii_of_nat (Z.to_nat (48 + d))
  else ascii_of_nat (Z.to_nat (87 + d)).

(** ['%0nx' % x] for [0 <= x < 16^n]: [n] lower-case hex digits. *)
Fixpoint hex (n : nat) (x : Z) : string :=
  match n with
  | O => ""
  | S n' => hex n' (x / 16) +:+ String (hex_digit (x mod 16)) ""
  end.

(** [str(UUID(int=x))] *)
Definition to_str (x : Z) : string :=
  let h := hex 32 x in
  PyStr.upto 8 h +:+ "-" +:+ PyStr.slice 8 12 h +:+ "-" +:+ PyStr.slice 12 16 h
    +:+ "-" +:+ PyStr.slice 16 20 h +:+ "-" +:+ PyStr.from 20 h.

End Uuid.

(** ** The world the handlers run in *)

(** What the engine process does with a command line: it exits with a
    return code and its two captured streams, or it cannot be started. *)
Inductive ProcResult : Type :=
| Exited (returncode : Z) (stdout stderr : string)
| SpawnFailed (cls msg : string).

(** Effects of a request, oldest first.  [print] calls only write to the
    server console and are not recorded; a console that refuses the text
    is outside the model. *)
Inductive Event : Type :=
| EvUuid4 (job_id : string)
| EvMakedirs (path : string)
| EvSave (path : string) (data : list byte)
| EvRun (cmd : list string).

Record World : Type := mkWorld {
  entropy : nat -> nat -> byte;        (* os.urandom: call number, byte index *)
  draws : nat;                         (* calls of os.urandom so far *)
  makedirs_error : string -> option exn;
  save_error : string -> list byte -> option exn;
  engine : list string -> ProcResult;
  root_path : string;                  (* app.root_path *)
  isfile : string -> bool;             (* os.path.isfile *)
  trace : list Event
}.

Definition log (ev : Event) (w : World) : World :=
  mkWorld (entropy w) (draws w) (makedirs_error w) (save_error w) (engine w)
          (root_path w) (isfile w) (trace w ++ [ev]).

(** State and exceptions. *)
Definition M (A : Type) : Type := World -> Outcome A * World.

Global Instance M_ret : MRet M := fun A a w => (Ok a, w).
Global Instance M_bind : MBind M := fun A B f m w =>
  match m w with
  | (Ok a, w') => f a w'
  | (Raise e, w') => (Raise e, w')
  end.

Definition raise {A} (e : exn) : M A := fun w => (Raise e, w).

Definition lift {A} (o : Outcome A) : M A := fun w => (o, w).

(** [try: body  except CalledProcessError as e: h1  except Exception as e: h2] *)
Definition try_except {A} (body : M A) (handler : exn -> M A) : M A := fun w =>
  match body w with
  | (Ok a, w') => (Ok a, w')
  | (Raise e, w') => handler e w'
  end.

Definition emit (ev : Event) : M unit := fun w => (Ok tt, log ev w).

(** [os.urandom(n)] *)
Definition os_urandom (n : nat) : M (list byte) := fun w =>
  (Ok (map (entropy w (draws w)) (seq 0 n)),
   mkWorld (entropy w) (S (draws w)) (makedirs_error w) (save_error w) (engine w)
           (root_path w) (isfile w) (trace w)).

(** [str(uuid.uuid4())] *)
Definition uuid4_str : M string :=
  b ← os_urandom 16;
  let job_id := Uuid.to_str (Uuid.uuid4_int b) in
  _ ← emit (EvUuid4 job_id);
  mret job_id.

(** [os.makedirs(path, exist_ok=True)] *)
Definition os_makedirs (path : string) : M unit := fun w =>
  let w' := log (EvMakedirs path) w in
  match makedirs_error w path with
  | Some e => (Raise e, w')
  | None => (Ok tt, w')
  end.

(** [subprocess.run(cmd, capture_output=True, text=True, check=True)];
    returns [(result.stdout, result.stderr)]. *)
Definition subprocess_run (cmd : list string) : M (string * string) := fun w =>
  let w' := log (EvRun cmd) w in
  match engine w cmd with
  | SpawnFailed cls msg => (Raise (Exception cls msg), w')
  | Exited rc out err =>
      if rc =? 0 then (Ok (out, err), w')
      else (Raise (CalledProcessError rc cmd out err), w')
  end.

(** ** Requests and responses *)

(** A [werkzeug.datastructures.FileStorage]. *)
Record FileStorage : Type := mkFile {
  filename : string;
  stream : list byte
}.

(** [bool(file)] is [bool(file.filename)]. *)
Definition file_truthy (f : FileStorage) : bool := negb (String.eqb (filename f) "").

(** [file.save(dst)] *)
Definition file_save (f : FileStorage) (dst : string) : M unit := fun w =>
  let w' := log (EvSave dst (stream f)) w in
  match save_error w dst (stream f) with
  | Some e => (Raise e, w')
  | None => (Ok tt, w')
  end.

(** [request.files] is a MultiDict: several parts may carry one name. *)
Record Request : Type := mkRequest {
  files : list (string * FileStorage)
}.

Fixpoint multidict_get (k : string) (d : list (string * FileStorage))
  : option FileStorage :=
  match d with
  | [] => None
  | (k', v) :: d' => if String.eqb k' k then Some v else multidict_get k d'
  end.

(** [k in d] *)
Definition multidict_contains (k : string) (d : list (string * FileStorage)) : bool :=
  match multidict_get k d with Some _ => true | None => false end.

(** [d[k]]: the first value of the key. *)
Definition multidict_getitem (k : string) (d : list (string * FileStorage))
  : Outcome FileStorage :=
  match multidict_get k d with
  | Some v => Ok v
  | None => Raise (Exception "BadRequestKeyError" "400 Bad Request")
  end.

(** [(jsonify(body), status)] *)
Record Response : Type := mkResponse {
  json : gmap string string;
  status : Z
}.

(** ** Configuration *)

Definition AUDIVERIS_PATH : string := "C:/Program Files/Audiveris/bin/Audiveris.bat".
Definition UPLOAD_FOLDER : string := "uploads".
Definition OUTPUT_FOLDER : string := "output".
Definition ALLOWED_EXTENSIONS : gset string := {[ "pdf"; "png"; "jpg"; "jpeg" ]}.

(** ** Helper functions *)

(** [return '.' in filename and
           filename.rsplit('.', 1)[1].lower() in ALLOWED_EXTENSIONS] *)
Definition allowed_file (filename : string) : Outcome bool :=
  if PyStr.contains "." filename then
    match index1 (PyStr.rsplit1 "." filename) with
    | Ok ext => Ok (bool_decide (PyStr.lower ext ∈ ALLOWED_EXTENSIONS))
    | Raise e => Raise e
    end
  else Ok false.

(** [create_folders()] *)
Definition create_folders : M unit :=
  _ ← os_makedirs UPLOAD_FOLDER;
  os_makedirs OUTPUT_FOLDER.

(** ** API routes *)

(** The two [except] clauses of [process_sheet_music]. *)
Definition process_except (e : exn) : M Response :=
  match e with
  | CalledProcessError _ _ _ stderr =>
      mret (mkResponse
              {[ "error" := "Failed to process the sheet music with Audiveris.";
                 "details" := stderr ]} 500)
  | Exception _ msg =>
      mret (mkResponse {[ "error" := "An unexpected error occurred: " +:+ msg ]} 500)
  end.

(** POST /process *)
Definition process_sheet_music (request : Request) : M Response :=
  if negb (multidict_contains "file" (files request)) then
    mret (mkResponse {[ "error" := "No file part in the request" ]} 400)
  else
    file ← lift (multidict_getitem "file" (files request));
    if String.eqb (filename file) "" then
      mret (mkResponse {[ "error" := "No file selected" ]} 400)
    else
      ok ← (if file_truthy file then lift (allowed_file (filename file))
            else mret false);
      if ok : bool then
        job_id ← uuid4_str;
        let input_filename := filename file in
        let input_path := PosixPath.join UPLOAD_FOLDER input_filename in
        let output_dir := PosixPath.join OUTPUT_FOLDER job_id in
        _ ← os_makedirs output_dir;
        _ ← file_save file input_path;
        try_except
          (let command :=
             [AUDIVERIS_PATH; "-batch"; "-run"; input_path;
              "-export"; "-output"; output_dir] in
           result ← subprocess_run command;
           let base_name := fst (PosixPath.splitext input_filename) in
           let files : gmap string string :=
             {[ "xml" := "/results/" +:+ job_id +:+ "/" +:+ base_name +:+ ".mxl";
                "midi" := "/results/" +:+ job_id +:+ "/" +:+ base_name +:+ ".mid";
                "musescore" := "/results/" +:+ job_id +:+ "/" +:+ base_name +:+ ".mscz" ]} in
           mret (mkResponse files 200))
          process_except
      else
        mret (mkResponse {[ "error" := "File type not allowed" ]} 400).

(** ** [flask.send_from_directory] *)

Module Werkzeug.

(** [_os_alt_seps]: separators other than "/" ; none with [posixpath]. *)
Definition _os_alt_seps : list ascii := [].

(** [werkzeug.security.safe_join(directory, filename)] *)
Definition safe_join (directory filename : string) : option string :=
  let directory := if String.eqb directory "" then "." else directory in
  let filename :=
    if negb (String.eqb filename "") then PosixPath.normpath filename
    else filename in
  if existsb (fun sep => PyStr.contains sep filename) _os_alt_seps
     || PosixPath.isabs filename
     || PyStr.startswith "/" filename
     || String.eqb filename ".."
     || PyStr.startswith "../" filename
  then None
  else Some (PosixPath.join directory filename).

(** [send_from_directory(directory, path)]: [Ok p] stands for
    [send_file(p)], the raised [NotFound] becomes a 404 response. *)
Definition send_from_directory (directory path : string) : M string := fun w =>
  match safe_join directory path with
  | None => (Raise (Exception "NotFound" "404 Not Found"), w)
  | Some path_str =>
      let path_str := PosixPath.join (root_path w) path_str in
      if negb (isfile w path_str)
      then (Raise (Exception "NotFound" "404 Not Found"), w)
      else (Ok path_str, w)
  end.

End Werkzeug.

(** GET /results/<path:path> *)
Definition send_result (path : string) : M string :=
  Werkzeug.send_from_directory OUTPUT_FOLDER path.

(** ** Vocabulary of the statements *)

(** The events a handler run added to the trace. *)
Definition effects (w w' : World) : list Event :=
  drop (length (trace w)) (trace w').

(** The upload of a request that passes the checks of [process_sheet_music]. *)
Definition valid_upload (request : Request) (file : FileStorage) : Prop :=
  multidict_get "file" (files request) = Some file
  /\ allowed_file (filename file) = Ok true.

(** A request that one of the three checks of [process_sheet_music] turns
    down: no "file" part, an empty filename, or a filename that
    [allowed_file] rejects. *)
Definition rejected_upload (request : Request) : Prop :=
  multidict_get "file" (files request) = None
  \/ exists file, multidict_get "file" (files request) = Some file
                  /\ (filename file = "" \/ allowed_file (filename file) = Ok false).

(** The identifier drawn by the next call of [uuid.uuid4] in [w]. *)
Definition next_job_id (w : World) : string :=
  Uuid.to_str (Uuid.uuid4_int (map (entropy w (draws w)) (seq 0 16))).

(** The command line of the engine for an upload and a job. *)
Definition engine_command (input_filename job_id : string) : list string :=
  [AUDIVERIS_PATH; "-batch"; "-run"; PosixPath.join UPLOAD_FOLDER input_filename;
   "-export"; "-output"; PosixPath.join OUTPUT_FOLDER job_id].

(** The commands run, in order. *)
Definition runs (evs : list Event) : list (list string) :=
  omap (fun ev => match ev with EvRun cmd => Some cmd | _ => None end) evs.

Definition is_save (ev : Event) : bool :=
  match ev with EvSave _ _ => true | _ => false end.
Definition is_makedirs (ev : Event) : bool :=
  match ev with EvMakedirs _ => true | _ => false end.
Definition is_run (ev : Event) : bool :=
  match ev with EvRun _ => true | _ => false end.

(** Index of the first event of a kind. *)
Fixpoint position (kind : Event -> bool) (evs : list Event) : option nat :=
  match evs with
  | [] => None
  | ev :: evs' => if kind ev then Some O else S <$> position kind evs'
  end.

(** [position k1 evs] and [position k2 evs] both exist, the first earlier. *)
Definition happens_before (k1 k2 : Event -> bool) (evs : list Event) : Prop :=
  exists i j, position k1 evs = Some i /\ position k2 evs = Some j /\ (i < j)%nat.

(** Walking the components of a relative path, [depth] levels below a
    directory, without ever stepping above that directory. *)
Fixpoint stays_inside (depth : nat) (comps : list string) : bool :=
  match comps with
  | [] => true
  | comp :: comps' =>
      if String.eqb comp "" || String.eqb comp "." then stays_inside depth comps'
      else if String.eqb comp ".." then
        match depth with
        | O => false
        | S d => stays_inside d comps'
        end
      else stays_inside (S depth) comps'
  end.

Fixpoint strip_prefix (p s : string) : option string :=
  match p, s with
  | EmptyString, _ => Some s
  | String _ _, EmptyString => None
  | String a p', String b s' => if Ascii.eqb a b then strip_prefix p' s' else None
  end.

(** [path] names [root] or something lexically below it. *)
Definition confined (root path : string) : bool :=
  match strip_prefix (root +:+ "/") path with
  | Some rel => stays_inside 0 (PyStr.split "/" rel)
  | None => false
  end.

(** Letter case, as the spec words it: [b] is the letter [a] in either
    case, that is [a] itself or, when [a] is one of the lower-case letters
    a to z (codes 97 to 122), its capital, 32 codes below. *)
Definition same_letter (a b : ascii) : Prop :=
  b = a
  \/ ((97 <= nat_of_ascii a <= 122)%nat
      /\ nat_of_ascii b = (nat_of_ascii a - 32)%nat).

(** [t] is [s] with each letter in either case. *)
Inductive case_variant : string -> string -> Prop :=
| case_variant_nil : case_variant "" ""
| case_variant_cons (a b : ascii) (s t : string) :
    same_letter a b -> case_variant s t ->
    case_variant (String a s) (String b t).



(** A string without the separator [sep]. *)
Definition sep_free (sep : ascii) (s : string) : Prop := PyStr.contains sep s = false.

(** A component that [normpath] keeps and that stays below the current
    directory. *)
Definition plain (c : string) : Prop :=
  c <> "" /\ c <> "." /\ c <> ".." /\ sep_free "/" c.

(** The list built by [normpath] for a relative path: some ".." in
    front, plain components after them. *)
Definition climbing (new_comps : list string) : Prop :=
  exists k rest, new_comps = replicate k ".." ++ rest /\ Forall plain rest.


(** As [climbing], with at least [k0] leading "..". *)
Definition climbing_from (k0 : nat) (new_comps : list string) : Prop :=
  exists k rest,
    (k0 <= k)%nat /\ new_comps = replicate k ".." ++ rest /\ Forall plain rest.

(** The file [send_result] looks for, for a path it does not refuse. *)
Definition served_path (w : World) (path : string) : string :=
  PosixPath.join (root_path w)
    ("output/" +:+ (if String.eqb path "" then "" else PosixPath.normpath path)).

(** A name made of dots only (the empty name included). *)
Fixpoint all_dots (s : string) : bool :=
  match s with
  | EmptyString => true
  | String a s' => Ascii.eqb a "." && all_dots s'
  end.

(** The response of a handler run that returned one. *)
Definition response_of (o : Outcome Response) : Response :=
  match o with
  | Ok resp => resp
  | Raise _ => mkResponse ∅ 0
  end.

(** ** Sample inputs *)

(** A request whose "file" part has the given filename. *)
Definition upload (name : string) : Request :=
  mkRequest [("file", mkFile name [x25; x50; x44; x46])].

(** A deterministic stand-in for the random source. *)
Definition sample_entropy (call i : nat) : byte :=
  match Byte.of_nat ((17 * call + i) mod 256) with
  | Some b => b
  | None => x00
  end.

(** A fresh server whose file system behaves as given, with the given engine. *)
Definition sample_world (mk : string -> option exn)
    (eng : list string -> ProcResult) : World :=
  mkWorld sample_entropy 0 mk (fun _ _ => None) eng "/srv/app" (fun _ => true) [].

Definition permission_denied : exn :=
  Exception "PermissionError" "[Errno 13] Permission denied".

Definition song_world : World :=
  sample_world (fun _ => None) (fun _ => Exited 0 "exported" "").
Definition failing_world : World :=
  sample_world (fun _ => None) (fun _ => Exited 2 "loading sheet" "no staves found").
Definition denied_world : World :=
  sample_world (fun _ => Some permission_denied) (fun _ => Exited 0 "exported" "").
Definition no_engine_world : World :=
  sample_world (fun _ => None)
    (fun _ => SpawnFailed "FileNotFoundError" "[Errno 2] No such file or directory").


(** * Properties *)

(** ** The model on the spec's examples *)

Example splitext_ex1 : PosixPath.splitext "song.png" = ("song", ".png").
Proof. reflexivity. Qed.

Example splitext_ex2 : PosixPath.splitext ".pdf" = (".pdf", "").
Proof. reflexivity. Qed.

Example splitext_ex3 : PosixPath.splitext "a.b/c" = ("a.b/c", "").
Proof. reflexivity. Qed.

Example splitext_ex4 : PosixPath.splitext "dir/..x.tar.gz" = ("dir/..x.tar", ".gz").
Proof. reflexivity. Qed.

Example normpath_ex1 : PosixPath.normpath "a/./b/../../../c//d/" = "../c/d".
Proof. reflexivity. Qed.

Example normpath_ex2 : PosixPath.normpath "//a/../../b" = "//b".
Proof. reflexivity. Qed.

Example normpath_ex3 : PosixPath.normpath "a/.." = ".".
Proof. reflexivity. Qed.

Example allowed_file_ex1 : allowed_file "score.PDF" = Ok true.
Proof. vm_compute. reflexivity. Qed.

Example allowed_file_ex2 : allowed_file "score." = Ok false.
Proof. vm_compute. reflexivity. Qed.

Example allowed_file_ex3 : allowed_file "a.png.txt" = Ok false.
Proof. vm_compute. reflexivity. Qed.

Example process_song_effects :
  effects song_world (snd (process_sheet_music (upload "song.png") song_world))
  = [EvUuid4 "00010203-0405-4607-8809-0a0b0c0d0e0f";
     EvMakedirs "output/00010203-0405-4607-8809-0a0b0c0d0e0f";
     EvSave "uploads/song.png" [x25; x50; x44; x46];
     EvRun ["C:/Program Files/Audiveris/bin/Audiveris.bat"; "-batch"; "-run";
            "uploads/song.png"; "-export"; "-output";
            "output/00010203-0405-4607-8809-0a0b0c0d0e0f"]].
Proof. vm_compute. reflexivity. Qed.

Example send_result_traversal :
  fst (send_result "../../secret" song_world)
  = Raise (Exception "NotFound" "404 Not Found").
Proof. reflexivity. Qed.

Example send_result_normalised :
  fst (send_result "J/x/../score.mxl" song_world) = Ok "/srv/app/output/J/score.mxl".
Proof. reflexivity. Qed.

(** ** Strings *)

Section StringFacts.

Implicit Types (s t : string) (c a : ascii) (n i : nat).

Lemma append_nil_r s : s +:+ "" = s.
Proof. induction s; simpl; congruence. Qed.

Lemma append_assoc s t u : (s +:+ t) +:+ u = s +:+ (t +:+ u).
Proof. induction s; simpl; congruence. Qed.

Lemma take_append s t : PyStr.take (String.length s) (s +:+ t) = s.
Proof. induction s; simpl; [now destruct t | congruence]. Qed.

Lemma drop_append s t : PyStr.drop (String.length s) (s +:+ t) = t.
Proof. induction s; simpl; auto. Qed.


Lemma contains_append c s t :
  PyStr.contains c (s +:+ t) = PyStr.contains c s || PyStr.contains c t.
Proof. induction s as [|a s IH]; simpl; auto. now destruct (Ascii.eqb a c). Qed.

Lemma rfind_nat_None c s :
  PyStr.rfind_nat c s = None <-> PyStr.contains c s = false.
Proof.
  induction s as [|a s IH]; simpl; [tauto|].
  destruct (PyStr.rfind_nat c s) as [i|], (Ascii.eqb a c); split; try discriminate; auto.
  - intros H. apply IH in H. discriminate.
  - intros _. now apply IH.
Qed.

(** The index found by [rfind] splits the string at its last [c]. *)
Lemma rfind_nat_Some c s i :
  PyStr.rfind_nat c s = Some i ->
  s = PyStr.take i s +:+ String c (PyStr.drop (S i) s)
  /\ PyStr.contains c (PyStr.drop (S i) s) = false
  /\ String.length (PyStr.take i s) = i.
Proof.
  revert i; induction s as [|a s IH]; simpl; intros i; [discriminate|].
  destruct (PyStr.rfind_nat c s) as [j|] eqn:E.
  - intros [= <-]. destruct (IH j eq_refl) as (H1 & H2 & H3).
    simpl in *. repeat split; auto; congruence.
  - destruct (Ascii.eqb a c) eqn:Eac; [|discriminate].
    intros [= <-]. apply Ascii.eqb_eq in Eac as ->. simpl.
    repeat split; auto. now apply rfind_nat_None.
Qed.

Lemma rfind_nat_append c s t :
  PyStr.contains c t = false ->
  PyStr.rfind_nat c (s +:+ String c t) = Some (String.length s).
Proof.
  intros Ht. induction s as [|a s IH]; simpl.
  - apply rfind_nat_None in Ht as ->. now rewrite Ascii.eqb_refl.
  - now rewrite IH.
Qed.

Lemma rfind_nonneg c s i : PyStr.rfind_nat c s = Some i -> PyStr.rfind c s = Z.of_nat i.
Proof. unfold PyStr.rfind. now intros ->. Qed.

Lemma bound_nonneg (z : Z) s : 0 <= z -> PyStr.bound z s = Z.to_nat z.
Proof. intros H. unfold PyStr.bound. destruct (Z.ltb_spec z 0); [lia | reflexivity]. Qed.

Lemma upto_of_nat i s : PyStr.upto (Z.of_nat i) s = PyStr.take i s.
Proof. unfold PyStr.upto. rewrite bound_nonneg by lia. now rewrite Nat2Z.id. Qed.

Lemma from_of_nat i s : PyStr.from (Z.of_nat i) s = PyStr.drop i s.
Proof. unfold PyStr.from. rewrite bound_nonneg by lia. now rewrite Nat2Z.id. Qed.

(** [rsplit('.', 1)] of a string that has a dot: the part before the
    last dot and the part after it. *)
Lemma rsplit1_append c s t :
  PyStr.contains c t = false ->
  PyStr.rsplit1 c (s +:+ String c t) = [s; t].
Proof.
  intros Ht. unfold PyStr.rsplit1.
  rewrite (rfind_nonneg _ _ _ (rfind_nat_append c s t Ht)).
  destruct (Z.ltb_spec (Z.of_nat (String.length s)) 0); [lia|].
  replace (Z.of_nat (String.length s) + 1) with (Z.of_nat (S (String.length s))) by lia.
  rewrite upto_of_nat, from_of_nat, take_append.
  change (S (String.length s)) with (1 + String.length s)%nat.
  f_equal. f_equal.
  replace (s +:+ String c t) with ((s +:+ String c "") +:+ t)
    by (rewrite append_assoc; reflexivity).
  replace (1 + String.length s)%nat with (String.length (s +:+ String c "")).
  - apply drop_append.
  - clear. induction s; simpl; auto.
Qed.

Lemma rsplit1_no_sep c s : PyStr.contains c s = false -> PyStr.rsplit1 c s = [s].
Proof.
  intros H. apply rfind_nat_None in H. unfold PyStr.rsplit1, PyStr.rfind.
  now rewrite H.
Qed.

(** Every string with a [c] decomposes around its last [c]. *)
Lemma contains_last_split c s :
  PyStr.contains c s = true ->
  exists stem ext, s = stem +:+ String c ext /\ PyStr.contains c ext = false.
Proof.
  intros H. destruct (PyStr.rfind_nat c s) as [i|] eqn:E.
  - destruct (rfind_nat_Some _ _ _ E) as (H1 & H2 & _). eauto.
  - apply rfind_nat_None in E. congruence.
Qed.

End StringFacts.

(** ** The upload validator *)

Lemma allowed_file_split (stem ext : string) :
  PyStr.contains "." ext = false ->
  allowed_file (stem +:+ String "." ext)
  = Ok (bool_decide (PyStr.lower ext ∈ ALLOWED_EXTENSIONS)).
Proof.
  intros Hext. unfold allowed_file.
  rewrite contains_append. simpl PyStr.contains at 2. rewrite orb_true_r.
  now rewrite rsplit1_append.
Qed.

Lemma allowed_file_no_dot (filename : string) :
  PyStr.contains "." filename = false -> allowed_file filename = Ok false.
Proof. intros H. unfold allowed_file. now rewrite H. Qed.

Lemma lower_contains_dot (s : string) :
  PyStr.contains "." (PyStr.lower s) = PyStr.contains "." s.
Proof.
  induction s as [|a s IH]; simpl; auto. rewrite IH. f_equal.
  destruct a as [[] [] [] [] [] [] [] []]; reflexivity.
Qed.

Lemma allowed_ext_no_dot (ext : string) :
  PyStr.lower ext ∈ ALLOWED_EXTENSIONS -> PyStr.contains "." ext = false.
Proof.
  intros H. rewrite <- lower_contains_dot.
  unfold ALLOWED_EXTENSIONS in H.
  rewrite !elem_of_union, !elem_of_singleton in H.
  destruct H as [[[-> | ->] | ->] | ->]; reflexivity.
Qed.

Lemma lower_char_same_letter (b : ascii) : same_letter (PyStr.lower_char b) b.
Proof.
  unfold same_letter, PyStr.lower_char.
  destruct (Nat.leb_spec 65 (nat_of_ascii b)); [|now left].
  destruct (Nat.leb_spec (nat_of_ascii b) 90); [|now left].
  cbn [andb]. right.
  rewrite nat_ascii_embedding by lia. lia.
Qed.

(** Every string is a case variant of its lower-cased form. *)
Lemma lower_case_variant (s : string) : case_variant (PyStr.lower s) s.
Proof.
  induction s as [|b s IH]; simpl; constructor; auto using lower_char_same_letter.
Qed.

Lemma same_letter_lower (a b : ascii) :
  same_letter a b -> PyStr.lower_char a = a -> PyStr.lower_char b = a.
Proof.
  intros [-> | [Ha Hb]] Hlow; [exact Hlow|].
  unfold PyStr.lower_char. rewrite Hb.
  destruct (Nat.leb_spec 65 (nat_of_ascii a - 32)); [|lia].
  destruct (Nat.leb_spec (nat_of_ascii a - 32) 90); [|lia].
  cbn [andb]. replace (nat_of_ascii a - 32 + 32)%nat with (nat_of_ascii a) by lia.
  apply ascii_nat_embedding.
Qed.

(** A case variant of a lower-case string lower-cases to that string. *)
Lemma case_variant_lower (e ext : string) :
  case_variant e ext -> PyStr.lower e = e -> PyStr.lower ext = e.
Proof.
  induction 1 as [|a b s t Hab _ IH]; [reflexivity|].
  simpl. intros [= Ha Hs]. f_equal; [now apply same_letter_lower | now apply IH].
Qed.

Lemma allowed_ext_lower (e : string) :
  e ∈ ALLOWED_EXTENSIONS -> PyStr.lower e = e.
Proof.
  unfold ALLOWED_EXTENSIONS. rewrite !elem_of_union, !elem_of_singleton.
  intros [[[-> | ->] | ->] | ->]; reflexivity.
Qed.

(** The extensions the validator lets through, without reference to
    [lower]: the case variants of pdf, png, jpg and jpeg. *)
Lemma lower_allowed_iff (ext : string) :
  PyStr.lower ext ∈ ALLOWED_EXTENSIONS
  <-> exists e, e ∈ ALLOWED_EXTENSIONS /\ case_variant e ext.
Proof.
  split.
  - intros H. exists (PyStr.lower ext). split; [exact H | apply lower_case_variant].
  - intros (e & He & Hv).
    now rewrite (case_variant_lower e ext Hv (allowed_ext_lower e He)).
Qed.

(** C2: [allowed_file] never raises, and it accepts exactly the filenames
    that have a "." and whose part after the last "." is one of pdf, png,
    jpg, jpeg with each letter in either case (equivalently: whose part
    after the last ".", lower-cased, is in the allow-set).  So a filename
    without "." is rejected, a filename ending in "." is rejected, and an
    allowed extension in any letter case is accepted.  The validator is a
    pure function of the filename. *)
Theorem allowed_file_spec (filename : string) :
  (exists b, allowed_file filename = Ok b)
  /\ (allowed_file filename = Ok true <->
      exists stem ext,
        filename = stem +:+ "." +:+ ext
        /\ PyStr.contains "." ext = false
        /\ PyStr.lower ext ∈ ALLOWED_EXTENSIONS)
  /\ (PyStr.contains "." filename = false -> allowed_file filename = Ok false)
  /\ allowed_file (filename +:+ ".") = Ok false
  /\ (forall ext, PyStr.lower ext ∈ ALLOWED_EXTENSIONS ->
                  allowed_file (filename +:+ "." +:+ ext) = Ok true)
  /\ (allowed_file filename = Ok true <->
      exists stem ext e,
        filename = stem +:+ "." +:+ ext
        /\ PyStr.contains "." ext = false
        /\ (e = "pdf" \/ e = "png" \/ e = "jpg" \/ e = "jpeg")
        /\ case_variant e ext)
  /\ (forall e ext,
        e = "pdf" \/ e = "png" \/ e = "jpg" \/ e = "jpeg" ->
        case_variant e ext ->
        allowed_file (filename +:+ "." +:+ ext) = Ok true).
Proof.
  assert (Hset : forall e, e ∈ ALLOWED_EXTENSIONS
                           <-> e = "pdf" \/ e = "png" \/ e = "jpg" \/ e = "jpeg").
  { intros e. unfold ALLOWED_EXTENSIONS.
    rewrite !elem_of_union, !elem_of_singleton. tauto. }
  assert (Hiff : allowed_file filename = Ok true <->
                 exists stem ext,
                   filename = stem +:+ "." +:+ ext
                   /\ PyStr.contains "." ext = false
                   /\ PyStr.lower ext ∈ ALLOWED_EXTENSIONS).
  { split.
    - intros H. destruct (PyStr.contains "." filename) eqn:E.
      + destruct (contains_last_split _ _ E) as (stem & ext & -> & Hext).
        exists stem, ext. repeat split; auto.
        rewrite (allowed_file_split stem ext Hext) in H.
        injection H as H. now apply bool_decide_eq_true in H.
      + rewrite allowed_file_no_dot in H by assumption. discriminate.
    - intros (stem & ext & -> & Hext & Hin).
      change ("." +:+ ext) with (String "." ext).
      rewrite allowed_file_split by assumption.
      f_equal. now apply bool_decide_eq_true. }
  assert (Hany : forall ext, PyStr.lower ext ∈ ALLOWED_EXTENSIONS ->
                             allowed_file (filename +:+ "." +:+ ext) = Ok true).
  { intros ext Hin. change ("." +:+ ext) with (String "." ext).
    rewrite allowed_file_split by now apply allowed_ext_no_dot.
    f_equal. now apply bool_decide_eq_true. }
  change (filename +:+ ".") with (filename +:+ String "." "").
  split_and!.
  - destruct (PyStr.contains "." filename) eqn:E.
    + destruct (contains_last_split _ _ E) as (stem & ext & -> & Hext).
      eexists. apply (allowed_file_split stem ext Hext).
    + eexists. now apply allowed_file_no_dot.
  - exact Hiff.
  - apply allowed_file_no_dot.
  - now rewrite (allowed_file_split filename "" eq_refl).
  - exact Hany.
  - rewrite Hiff. split.
    + intros (stem & ext & Hf & Hext & Hin).
      apply lower_allowed_iff in Hin as (e & He & Hv).
      exists stem, ext, e. split_and!; auto. now apply Hset.
    + intros (stem & ext & e & Hf & Hext & He & Hv).
      exists stem, ext. split_and!; auto.
      apply lower_allowed_iff. exists e. split; [now apply Hset | exact Hv].
  - intros e ext He Hv. apply Hany, lower_allowed_iff.
    exists e. split; [now apply Hset | exact Hv].
Qed.

(** ** The job orchestrator *)

Local Arguments Uuid.to_str : simpl never.
Local Arguments PosixPath.join : simpl never.
Local Arguments PosixPath.splitext : simpl never.
Local Arguments allowed_file : simpl never.

Ltac world_step :=
  cbv beta iota;
  cbn [makedirs_error save_error engine log trace entropy draws root_path isfile
       process_except mret M_ret].

Lemma effects_app (w w' : World) (evs : list Event) :
  trace w' = (trace w ++ evs)%list -> effects w w' = evs.
Proof. intros H. unfold effects. rewrite H. apply drop_app_length. Qed.

(** What a valid upload makes the handler do, by the outcome of each
    step: a failing [os.makedirs] or [file.save] ends the request with the
    exception, since both run before the [try]. *)
Lemma process_valid_run (request : Request) (file : FileStorage) (w : World) :
  valid_upload request file ->
  let job_id := next_job_id w in
  let input_path := PosixPath.join UPLOAD_FOLDER (filename file) in
  let output_dir := PosixPath.join OUTPUT_FOLDER job_id in
  let cmd := engine_command (filename file) job_id in
  let base_name := fst (PosixPath.splitext (filename file)) in
  exists w',
    draws w' = S (draws w)
    /\ entropy w' = entropy w /\ makedirs_error w' = makedirs_error w
    /\ save_error w' = save_error w /\ engine w' = engine w
    /\ match makedirs_error w output_dir with
       | Some e =>
           process_sheet_music request w = (Raise e, w')
           /\ effects w w' = [EvUuid4 job_id; EvMakedirs output_dir]
       | None =>
           match save_error w input_path (stream file) with
           | Some e =>
               process_sheet_music request w = (Raise e, w')
               /\ effects w w'
                  = [EvUuid4 job_id; EvMakedirs output_dir;
                     EvSave input_path (stream file)]
           | None =>
               effects w w'
               = [EvUuid4 job_id; EvMakedirs output_dir;
                  EvSave input_path (stream file); EvRun cmd]
               /\ process_sheet_music request w
                  = (Ok match engine w cmd with
                        | SpawnFailed _ msg =>
                            mkResponse
                              {[ "error" := "An unexpected error occurred: " +:+ msg ]}
                              500
                        | Exited rc _ err =>
                            if rc =? 0 then
                              mkResponse
                                {[ "xml" := "/results/" +:+ job_id +:+ "/" +:+ base_name +:+ ".mxl";
                                   "midi" := "/results/" +:+ job_id +:+ "/" +:+ base_name +:+ ".mid";
                                   "musescore" := "/results/" +:+ job_id +:+ "/" +:+ base_name +:+ ".mscz" ]}
                                200
                            else
                              mkResponse
                                {[ "error" := "Failed to process the sheet music with Audiveris.";
                                   "details" := err ]}
                                500
                        end, w')
           end
       end.
Proof.
  intros [Hget Hok]. cbv zeta.
  assert (Hname : String.eqb (filename file) "" = false).
  { destruct (filename file); [discriminate Hok | reflexivity]. }
  unfold process_sheet_music, multidict_contains, multidict_getitem, file_truthy,
    uuid4_str, os_urandom, emit, os_makedirs, file_save, try_except, subprocess_run,
    mbind, M_bind, mret, M_ret, lift.
  rewrite Hget. cbn [negb]. cbv beta iota. rewrite Hname. cbn [negb]. cbv beta iota.
  rewrite Hok. cbv beta iota zeta. world_step.
  fold (next_job_id w). fold (engine_command (filename file) (next_job_id w)).
  destruct (makedirs_error w _) as [e|]; world_step.
  { eexists; split_and!; [..|reflexivity|]; try reflexivity.
    apply effects_app; cbn [trace log]; now rewrite <- !app_assoc. }
  destruct (save_error w _ _) as [e|]; world_step.
  { eexists; split_and!; [..|reflexivity|]; try reflexivity.
    apply effects_app; cbn [trace log]; now rewrite <- !app_assoc. }
  destruct (engine w _) as [rc out err|cls msg]; [destruct (rc =? 0)|]; world_step;
    (eexists; split_and!; [..|reflexivity]; try reflexivity;
     apply effects_app; cbn [trace log]; now rewrite <- !app_assoc).
Qed.

(** Membership of an event in an explicit list of effects. *)
Ltac in_effects H :=
  repeat (apply elem_of_cons in H as [H|H]; [try discriminate H|]);
  try (apply elem_of_nil in H; contradiction).

(** The outcome and the effects of a valid upload whose engine ran. *)
Lemma process_engine_ran (request : Request) (file : FileStorage) (w w' : World)
    (o : Outcome Response) (cmd : list string) :
  valid_upload request file ->
  process_sheet_music request w = (o, w') ->
  EvRun cmd ∈ effects w w' ->
  let job_id := next_job_id w in
  let base_name := fst (PosixPath.splitext (filename file)) in
  cmd = engine_command (filename file) job_id
  /\ effects w w'
     = [EvUuid4 job_id; EvMakedirs (PosixPath.join OUTPUT_FOLDER job_id);
        EvSave (PosixPath.join UPLOAD_FOLDER (filename file)) (stream file);
        EvRun cmd]
  /\ o = Ok match engine w cmd with
            | SpawnFailed _ msg =>
                mkResponse {[ "error" := "An unexpected error occurred: " +:+ msg ]} 500
            | Exited rc _ err =>
                if rc =? 0 then
                  mkResponse
                    {[ "xml" := "/results/" +:+ job_id +:+ "/" +:+ base_name +:+ ".mxl";
                       "midi" := "/results/" +:+ job_id +:+ "/" +:+ base_name +:+ ".mid";
                       "musescore" := "/results/" +:+ job_id +:+ "/" +:+ base_name +:+ ".mscz" ]}
                    200
                else
                  mkResponse
                    {[ "error" := "Failed to process the sheet music with Audiveris.";
                       "details" := err ]}
                    500
            end.
Proof.
  intros Hvalid Hrun Hin. cbv zeta.
  destruct (process_valid_run request file w Hvalid) as (w1 & _ & _ & _ & _ & _ & H).
  destruct (makedirs_error w _) as [e|].
  { destruct H as [H1 H2]. rewrite Hrun in H1. injection H1 as -> ->.
    rewrite H2 in Hin. in_effects Hin. }
  destruct (save_error w _ _) as [e|].
  { destruct H as [H1 H2]. rewrite Hrun in H1. injection H1 as -> ->.
    rewrite H2 in Hin. in_effects Hin. }
  destruct H as [H2 H1]. rewrite Hrun in H1. injection H1 as -> ->.
  rewrite H2 in Hin. in_effects Hin. injection Hin as ->.
  split_and!; [reflexivity | exact H2 | reflexivity].
Qed.

(** C1: for a valid upload with filename F whose engine subprocess exits
    with code zero, the response of /process has status 200 and its body is
    exactly the map with the three keys xml, midi and musescore, bound to
    /results/{job_id}/{B}.mxl, .mid and .mscz, where B is the first
    component of [os.path.splitext F] and job_id is the identifier
    generated in this request. *)
Theorem process_success_response (request : Request) (file : FileStorage)
    (w w' : World) (o : Outcome Response) (cmd : list string) (out err : string) :
  valid_upload request file ->
  process_sheet_music request w = (o, w') ->
  EvRun cmd ∈ effects w w' ->
  engine w cmd = Exited 0 out err ->
  exists job_id,
    (forall j, EvUuid4 j ∈ effects w w' <-> j = job_id)
    /\ let B := fst (PosixPath.splitext (filename file)) in
       o = Ok (mkResponse
                 {[ "xml" := "/results/" +:+ job_id +:+ "/" +:+ B +:+ ".mxl";
                    "midi" := "/results/" +:+ job_id +:+ "/" +:+ B +:+ ".mid";
                    "musescore" := "/results/" +:+ job_id +:+ "/" +:+ B +:+ ".mscz" ]}
                 200).
Proof.
  intros Hvalid Hrun Hin Hexit.
  destruct (process_engine_ran _ _ _ _ _ _ Hvalid Hrun Hin) as (_ & Heff & Ho).
  exists (next_job_id w). split.
  - intros j. rewrite Heff. split.
    + intros Hj. in_effects Hj. now injection Hj.
    + intros ->. apply elem_of_cons. now left.
  - rewrite Hexit in Ho. exact Ho.
Qed.

(** C3: when the engine subprocess of a valid upload exits with a
    non-zero code, the response has status 500 and its body has an "error"
    field and a "details" field holding the captured standard error (and
    so not the standard output, when the two differ); the engine is run
    exactly once. *)
Theorem process_engine_failure (request : Request) (file : FileStorage)
    (w w' : World) (o : Outcome Response) (cmd : list string)
    (rc : Z) (out err : string) :
  valid_upload request file ->
  process_sheet_music request w = (o, w') ->
  EvRun cmd ∈ effects w w' ->
  engine w cmd = Exited rc out err ->
  rc <> 0 ->
  exists resp,
    o = Ok resp
    /\ status resp = 500
    /\ is_Some (json resp !! "error")
    /\ json resp !! "details" = Some err
    /\ (out <> err -> json resp !! "details" <> Some out)
    /\ runs (effects w w') = [cmd].
Proof.
  intros Hvalid Hrun Hin Hexit Hrc.
  destruct (process_engine_ran _ _ _ _ _ _ Hvalid Hrun Hin) as (_ & Heff & Ho).
  rewrite Hexit in Ho. destruct (Z.eqb_spec rc 0) as [|_]; [contradiction|].
  eexists. split; [exact Ho|]. cbn [status json].
  assert (Hd : ({[ "error" := "Failed to process the sheet music with Audiveris.";
                   "details" := err ]} : gmap string string) !! "details" = Some err).
  { rewrite lookup_insert_ne by discriminate. apply lookup_singleton_eq. }
  split_and!.
  - reflexivity.
  - rewrite lookup_insert_eq. eauto.
  - exact Hd.
  - rewrite Hd. congruence.
  - rewrite Heff. reflexivity.
Qed.

(** C4: when the "file" part is missing, its filename is empty, or the
    filename fails the extension check, the response has status 400 and a
    body with an "error" field, and the world is left as it was: no
    identifier drawn, nothing saved, no directory created, no subprocess
    run. *)
Theorem process_rejects_without_effects (request : Request) (w : World) :
  (multidict_get "file" (files request) = None
   \/ exists file, multidict_get "file" (files request) = Some file
                   /\ (filename file = ""
                       \/ allowed_file (filename file) = Ok false)) ->
  exists resp,
    process_sheet_music request w = (Ok resp, w)
    /\ status resp = 400
    /\ is_Some (json resp !! "error")
    /\ effects w w = [].
Proof.
  assert (Heff : effects w w = []) by (unfold effects; apply drop_all).
  unfold process_sheet_music, multidict_contains, multidict_getitem, file_truthy,
    mbind, M_bind, mret, M_ret, lift.
  intros [Hnone | (file & Hget & Hbad)].
  - rewrite Hnone. cbn [negb]. eexists. split_and!; try reflexivity; [|exact Heff].
    cbn [json]. rewrite lookup_singleton_eq. eauto.
  - rewrite Hget. cbn [negb]. cbv beta iota.
    destruct (String.eqb_spec (filename file) "") as [Hempty|Hne].
    + eexists. split_and!; try reflexivity; [|exact Heff].
      cbn [json]. rewrite lookup_singleton_eq. eauto.
    + destruct Hbad as [Hempty|Hrej]; [contradiction|].
      cbn [negb]. rewrite Hrej. cbv beta iota.
      eexists. split_and!; try reflexivity; [|exact Heff].
      cbn [json]. rewrite lookup_singleton_eq. eauto.
Qed.

(** The effects of a valid upload, by the outcome of each step. *)
Lemma process_valid_effects (request : Request) (file : FileStorage)
    (w w' : World) (o : Outcome Response) :
  valid_upload request file ->
  process_sheet_music request w = (o, w') ->
  effects w w'
  = EvUuid4 (next_job_id w)
      :: EvMakedirs (PosixPath.join OUTPUT_FOLDER (next_job_id w))
      :: match makedirs_error w (PosixPath.join OUTPUT_FOLDER (next_job_id w)) with
         | Some _ => []
         | None =>
             EvSave (PosixPath.join UPLOAD_FOLDER (filename file)) (stream file)
               :: match save_error w (PosixPath.join UPLOAD_FOLDER (filename file))
                          (stream file) with
                  | Some _ => []
                  | None => [EvRun (engine_command (filename file) (next_job_id w))]
                  end
         end.
Proof.
  intros Hvalid Hrun.
  destruct (process_valid_run request file w Hvalid) as (w1 & _ & _ & _ & _ & _ & H).
  destruct (makedirs_error w _) as [e|]; [|destruct (save_error w _ _) as [e|]].
  - destruct H as [H1 H2]. rewrite Hrun in H1. now injection H1 as -> ->.
  - destruct H as [H1 H2]. rewrite Hrun in H1. now injection H1 as -> ->.
  - destruct H as [H2 H1]. rewrite Hrun in H1. now injection H1 as -> ->.
Qed.

(** C6, as amended: an exception raised inside the [try] block, that is
    by the engine invocation, is answered with status 500 and a body whose
    only field is "error", holding a fixed prefix and the message of the
    exception.  [os.makedirs] and [file.save] run before the [try]: an
    exception they raise leaves the handler uncaught, and the engine is not
    run. *)
Theorem process_unexpected_exception (request : Request) (file : FileStorage)
    (w w' : World) (o : Outcome Response) :
  valid_upload request file ->
  process_sheet_music request w = (o, w') ->
  let output_dir := PosixPath.join OUTPUT_FOLDER (next_job_id w) in
  let input_path := PosixPath.join UPLOAD_FOLDER (filename file) in
  (forall cmd cls msg,
      EvRun cmd ∈ effects w w' ->
      engine w cmd = SpawnFailed cls msg ->
      o = Ok (mkResponse {[ "error" := "An unexpected error occurred: " +:+ msg ]} 500))
  /\ (forall e, makedirs_error w output_dir = Some e ->
                o = Raise e /\ runs (effects w w') = [])
  /\ (forall e, makedirs_error w output_dir = None ->
                save_error w input_path (stream file) = Some e ->
                o = Raise e /\ runs (effects w w') = []).
Proof.
  intros Hvalid Hrun. cbv zeta. split_and!.
  - intros cmd cls msg Hin Hspawn.
    destruct (process_engine_ran _ _ _ _ _ _ Hvalid Hrun Hin) as (_ & _ & Ho).
    now rewrite Hspawn in Ho.
  - intros e He.
    destruct (process_valid_run request file w Hvalid) as (w1 & _ & _ & _ & _ & _ & H).
    rewrite He in H. destruct H as [H1 H2].
    rewrite Hrun in H1. injection H1 as -> ->. now rewrite H2.
  - intros e Hmk He.
    destruct (process_valid_run request file w Hvalid) as (w1 & _ & _ & _ & _ & _ & H).
    rewrite Hmk, He in H. destruct H as [H1 H2].
    rewrite Hrun in H1. injection H1 as -> ->. now rewrite H2.
Qed.

(** C7, as amended: a valid upload makes the handler draw the job
    identifier, then create the job's output directory, then, if that
    succeeded, save the upload's bytes under the client-supplied filename
    in the intake directory, and then, if that succeeded, run the engine.
    So whenever the engine is run, the directory was created before the
    upload was saved, and the upload was saved before the engine ran. *)
Theorem process_step_order (request : Request) (file : FileStorage)
    (w w' : World) (o : Outcome Response) :
  valid_upload request file ->
  process_sheet_music request w = (o, w') ->
  let job_id := next_job_id w in
  let output_dir := PosixPath.join OUTPUT_FOLDER job_id in
  let input_path := PosixPath.join UPLOAD_FOLDER (filename file) in
  effects w w'
  = EvUuid4 job_id :: EvMakedirs output_dir ::
      match makedirs_error w output_dir with
      | Some _ => []
      | None =>
          EvSave input_path (stream file) ::
            match save_error w input_path (stream file) with
            | Some _ => []
            | None => [EvRun (engine_command (filename file) job_id)]
            end
      end
  /\ (forall cmd, EvRun cmd ∈ effects w w' ->
                  happens_before is_makedirs is_save (effects w w')
                  /\ happens_before is_save is_run (effects w w')).
Proof.
  intros Hvalid Hrun. cbv zeta. split.
  - exact (process_valid_effects request file w w' o Hvalid Hrun).
  - intros cmd Hin.
    destruct (process_engine_ran _ _ _ _ _ _ Hvalid Hrun Hin) as (_ & -> & _).
    split; [exists 1%nat, 2%nat | exists 2%nat, 3%nat]; split_and!; (reflexivity || lia).
Qed.

(** ** The statements on sample inputs *)

Lemma upload_valid (name : string) :
  allowed_file name = Ok true ->
  valid_upload (upload name) (mkFile name [x25; x50; x44; x46]).
Proof. intros H. split; [reflexivity | exact H]. Qed.

Lemma in_effects_run (w w' : World) (cmd : list string) :
  existsb (fun c => bool_decide (c = cmd)) (runs (effects w w')) = true ->
  EvRun cmd ∈ effects w w'.
Proof.
  generalize (effects w w'). intros evs. induction evs as [|ev evs IH]; [discriminate|].
  destruct ev as [j|p|p d|c]; cbn; intros H; apply elem_of_cons;
    [right; apply IH, H ..|].
  apply orb_true_iff in H as [H|H]; [left | right; apply IH, H].
  apply bool_decide_eq_true in H. congruence.
Qed.

Lemma process_success_response_song :
  exists J,
    fst (process_sheet_music (upload "song.png") song_world)
    = Ok (mkResponse
            {[ "xml" := "/results/" +:+ J +:+ "/song.mxl";
               "midi" := "/results/" +:+ J +:+ "/song.mid";
               "musescore" := "/results/" +:+ J +:+ "/song.mscz" ]} 200).
Proof.
  destruct (process_success_response
              (upload "song.png") (mkFile "song.png" [x25; x50; x44; x46])
              song_world (snd (process_sheet_music (upload "song.png") song_world))
              (fst (process_sheet_music (upload "song.png") song_world))
              (engine_command "song.png" (next_job_id song_world)) "exported" "")
    as (J & _ & HJ).
  - apply upload_valid. vm_compute. reflexivity.
  - apply surjective_pairing.
  - apply in_effects_run. vm_compute. reflexivity.
  - reflexivity.
  - exists J. exact HJ.
Defined.

Lemma process_engine_failure_staves :
  exists resp,
    fst (process_sheet_music (upload "song.png") failing_world) = Ok resp
    /\ status resp = 500
    /\ json resp !! "details" = Some "no staves found".
Proof.
  destruct (process_engine_failure
              (upload "song.png") (mkFile "song.png" [x25; x50; x44; x46])
              failing_world (snd (process_sheet_music (upload "song.png") failing_world))
              (fst (process_sheet_music (upload "song.png") failing_world))
              (engine_command "song.png" (next_job_id failing_world))
              2 "loading sheet" "no staves found")
    as (resp & H1 & H2 & _ & H3 & _).
  - apply upload_valid. vm_compute. reflexivity.
  - apply surjective_pairing.
  - apply in_effects_run. vm_compute. reflexivity.
  - reflexivity.
  - lia.
  - exists resp. auto.
Defined.

Lemma process_rejects_txt :
  exists resp,
    process_sheet_music (upload "notes.txt") song_world = (Ok resp, song_world)
    /\ status resp = 400.
Proof.
  destruct (process_rejects_without_effects (upload "notes.txt") song_world)
    as (resp & H1 & H2 & _).
  - right. eexists. split; [reflexivity|]. right. vm_compute. reflexivity.
  - exists resp. auto.
Defined.

(** C6, counterexample: the upload is valid, creating the job's directory
    raises, and the handler ends with that exception instead of a
    response. *)
Lemma makedirs_failure_not_caught :
  valid_upload (upload "score.pdf") (mkFile "score.pdf" [x25; x50; x44; x46])
  /\ fst (process_sheet_music (upload "score.pdf") denied_world)
     = Raise permission_denied
  /\ ~ exists resp,
         fst (process_sheet_music (upload "score.pdf") denied_world) = Ok resp.
Proof.
  assert (H : fst (process_sheet_music (upload "score.pdf") denied_world)
              = Raise permission_denied) by (vm_compute; reflexivity).
  split_and!.
  - apply upload_valid. vm_compute. reflexivity.
  - exact H.
  - intros [resp Hresp]. rewrite H in Hresp. discriminate.
Qed.

Lemma process_unexpected_exception_missing_engine :
  fst (process_sheet_music (upload "score.pdf") no_engine_world)
  = Ok (mkResponse
          {[ "error" := "An unexpected error occurred: [Errno 2] No such file or directory" ]}
          500).
Proof.
  destruct (process_unexpected_exception
              (upload "score.pdf") (mkFile "score.pdf" [x25; x50; x44; x46])
              no_engine_world
              (snd (process_sheet_music (upload "score.pdf") no_engine_world))
              (fst (process_sheet_music (upload "score.pdf") no_engine_world)))
    as (H & _).
  - apply upload_valid. vm_compute. reflexivity.
  - apply surjective_pairing.
  - apply (H (engine_command "score.pdf" (next_job_id no_engine_world))
             "FileNotFoundError" "[Errno 2] No such file or directory").
    + apply in_effects_run. vm_compute. reflexivity.
    + reflexivity.
Defined.

(** C7, counterexample: for a valid upload that is processed to the end,
    the output directory is created (second effect) before the upload is
    saved (third effect), not after. *)
Lemma makedirs_precedes_save :
  valid_upload (upload "score.pdf") (mkFile "score.pdf" [x25; x50; x44; x46])
  /\ position is_makedirs
       (effects song_world (snd (process_sheet_music (upload "score.pdf") song_world)))
     = Some 1%nat
  /\ position is_save
       (effects song_world (snd (process_sheet_music (upload "score.pdf") song_world)))
     = Some 2%nat
  /\ ~ happens_before is_save is_makedirs
         (effects song_world (snd (process_sheet_music (upload "score.pdf") song_world))).
Proof.
  assert (H1 : position is_makedirs
                 (effects song_world
                    (snd (process_sheet_music (upload "score.pdf") song_world)))
               = Some 1%nat) by (vm_compute; reflexivity).
  assert (H2 : position is_save
                 (effects song_world
                    (snd (process_sheet_music (upload "score.pdf") song_world)))
               = Some 2%nat) by (vm_compute; reflexivity).
  split_and!; [apply upload_valid; vm_compute; reflexivity | exact H1 | exact H2 |].
  intros (i & j & Hi & Hj & Hlt). rewrite H2 in Hi. rewrite H1 in Hj.
  injection Hi as <-. injection Hj as <-. lia.
Qed.

Lemma process_step_order_score :
  happens_before is_makedirs is_save
    (effects song_world (snd (process_sheet_music (upload "score.pdf") song_world)))
  /\ happens_before is_save is_run
       (effects song_world (snd (process_sheet_music (upload "score.pdf") song_world))).
Proof.
  destruct (process_step_order
              (upload "score.pdf") (mkFile "score.pdf" [x25; x50; x44; x46])
              song_world (snd (process_sheet_music (upload "score.pdf") song_world))
              (fst (process_sheet_music (upload "score.pdf") song_world)))
    as (_ & H).
  - apply upload_valid. vm_compute. reflexivity.
  - apply surjective_pairing.
  - apply (H (engine_command "score.pdf" (next_job_id song_world))).
    apply in_effects_run. vm_compute. reflexivity.
Defined.

(** ** Base names *)

Lemma rfind_ge (c : ascii) (s : string) : -1 <= PyStr.rfind c s.
Proof. unfold PyStr.rfind. destruct (PyStr.rfind_nat c s); lia. Qed.

Lemma rfind_leading (c : ascii) (s : string) :
  PyStr.contains c s = false -> PyStr.rfind c (String c s) = 0.
Proof.
  intros H. apply rfind_nat_None in H. unfold PyStr.rfind. simpl.
  now rewrite H, Ascii.eqb_refl.
Qed.

(** [splitext] takes a name whose only dot is its first character to
    have no extension, whatever the separators. *)
Lemma splitext_leading_dot (sep : ascii) (altsep : option ascii) (e : string) :
  PyStr.contains "." e = false ->
  PosixPath._splitext (String "." e) sep altsep = (String "." e, "").
Proof.
  intros He. unfold PosixPath._splitext. rewrite (rfind_leading "." e He).
  set (sepIndex := match altsep with
                   | Some a => Z.max _ _
                   | None => _
                   end).
  assert (Hge : -1 <= sepIndex).
  { subst sepIndex. destruct altsep; [|apply rfind_ge].
    pose proof (rfind_ge sep (String "." e)). lia. }
  destruct (Z.ltb_spec sepIndex 0); [|reflexivity].
  replace sepIndex with (-1) by lia. reflexivity.
Qed.

(** C10, as amended: for a filename that is a dot followed by a
    dot-free string [e], [allowed_file] accepts exactly when [e] lower-cased
    is an allowed extension, while [os.path.splitext] strips nothing, so
    the base name is the whole filename; for an accepted one whose engine
    exits zero the predicted paths are /results/{job_id}/.{e}.mxl, .mid
    and .mscz. *)
Theorem leading_dot_filename (e : string) :
  PyStr.contains "." e = false ->
  allowed_file ("." +:+ e) = Ok (bool_decide (PyStr.lower e ∈ ALLOWED_EXTENSIONS))
  /\ PosixPath.splitext ("." +:+ e) = ("." +:+ e, "")
  /\ PosixPath.nt_splitext ("." +:+ e) = ("." +:+ e, "")
  /\ forall request file w w' o cmd out err,
       filename file = "." +:+ e ->
       valid_upload request file ->
       process_sheet_music request w = (o, w') ->
       EvRun cmd ∈ effects w w' ->
       engine w cmd = Exited 0 out err ->
       o = Ok (mkResponse
                 {[ "xml" := "/results/" +:+ next_job_id w +:+ "/" +:+ ("." +:+ e) +:+ ".mxl";
                    "midi" := "/results/" +:+ next_job_id w +:+ "/" +:+ ("." +:+ e) +:+ ".mid";
                    "musescore" := "/results/" +:+ next_job_id w +:+ "/" +:+ ("." +:+ e) +:+ ".mscz" ]}
                 200).
Proof.
  intros He. change ("." +:+ e) with (String "." e). split_and!.
  - apply (allowed_file_split "" e He).
  - apply splitext_leading_dot, He.
  - apply splitext_leading_dot, He.
  - intros request file w w' o cmd out err Hname Hvalid Hrun Hin Hexit.
    destruct (process_engine_ran _ _ _ _ _ _ Hvalid Hrun Hin) as (_ & _ & Ho).
    rewrite Hexit, Hname in Ho. cbn [Z.eqb] in Ho.
    unfold PosixPath.splitext in Ho. rewrite (splitext_leading_dot _ _ e He) in Ho.
    exact Ho.
Qed.

(** C10, counterexample: ".txt" has its only dot in front, and
    [allowed_file] rejects it. *)
Lemma leading_dot_txt_rejected :
  PyStr.contains "." "txt" = false /\ allowed_file ("." +:+ "txt") = Ok false.
Proof. split; vm_compute; reflexivity. Qed.

Lemma leading_dot_pdf :
  allowed_file ".pdf" = Ok true /\ PosixPath.splitext ".pdf" = (".pdf", "").
Proof.
  destruct (leading_dot_filename "pdf") as (H1 & H2 & _).
  - reflexivity.
  - split; [exact H1 | exact H2].
Defined.

(** ** Path components *)

Section Components.

Variable sep : ascii.

Lemma split_sep_free (s : string) : sep_free sep s -> PyStr.split sep s = [s].
Proof.
  unfold sep_free. induction s as [|a s IH]; simpl; [reflexivity|].
  destruct (Ascii.eqb a sep); [discriminate|]. intros H. now rewrite IH.
Qed.

Lemma split_append (x s : string) :
  sep_free sep x -> PyStr.split sep (x +:+ String sep s) = x :: PyStr.split sep s.
Proof.
  unfold sep_free. induction x as [|a x IH]; simpl.
  - now rewrite Ascii.eqb_refl.
  - destruct (Ascii.eqb a sep); [discriminate|]. intros H. now rewrite IH.
Qed.

Lemma split_components (s : string) : Forall (sep_free sep) (PyStr.split sep s).
Proof.
  unfold sep_free. induction s as [|a s IH]; simpl.
  - now constructor.
  - destruct (Ascii.eqb a sep) eqn:E; [now constructor|].
    destruct (PyStr.split sep s) as [|w ws]; constructor.
    + simpl. now rewrite E.
    + constructor.
    + simpl. rewrite E. now inversion IH.
    + now inversion IH.
Qed.

(** Splitting a joined list of separator-free components gives them back. *)
Lemma split_join (l : list string) :
  l <> [] -> Forall (sep_free sep) l ->
  PyStr.split sep (PyStr.join (String sep "") l) = l.
Proof.
  induction l as [|x l IH]; [congruence|]. intros _ Hl.
  apply Forall_cons in Hl as [Hx Hl]. destruct l as [|y l].
  - simpl. now apply split_sep_free.
  - change (PyStr.join (String sep "") (x :: y :: l))
      with (x +:+ String sep (PyStr.join (String sep "") (y :: l))).
    rewrite split_append by assumption. f_equal. now apply IH.
Qed.

End Components.

Lemma stays_inside_plain (comps : list string) (depth : nat) :
  Forall plain comps -> stays_inside depth comps = true.
Proof.
  intros H. revert depth. induction H as [|c comps (H1 & H2 & H3 & _) _ IH]; intros depth.
  - reflexivity.
  - simpl. apply String.eqb_neq in H1, H2, H3. rewrite H1, H2, H3. apply IH.
Qed.

Lemma normpath_loop_climbing (comps new_comps : list string) :
  Forall (sep_free "/") comps ->
  climbing new_comps ->
  climbing (PosixPath.normpath_loop 0 comps new_comps).
Proof.
  intros Hcomps. revert new_comps.
  induction Hcomps as [|comp comps Hfree _ IH]; intros acc Hacc; [exact Hacc|].
  simpl. destruct (String.eqb_spec comp "") as [|Hne]; [now apply IH|].
  destruct (String.eqb_spec comp ".") as [|Hnd]; [now apply IH|].
  cbn [orb]. destruct (String.eqb_spec comp "..") as [->|Hndd]; cbn [negb orb].
  - destruct Hacc as (k & rest & -> & Hrest).
    destruct rest as [|x rest _] using rev_ind.
    + (* only ".." so far: one more *)
      rewrite app_nil_r.
      assert (Hgo : bool_decide (replicate k ".." = []) || 
                    bool_decide (last (replicate k "..") = Some "..") = true).
      { destruct k as [|k]; [reflexivity|].
        apply orb_true_iff. right. apply bool_decide_eq_true.
        rewrite replicate_S_end. apply last_snoc. }
      rewrite Hgo. apply IH. exists (S k), []. split; [|constructor].
      now rewrite app_nil_r, replicate_S_end.
    + (* a plain component at the end: it is popped *)
      apply Forall_app in Hrest as [Hrest Hx]. apply Forall_inv in Hx.
      rewrite app_assoc.
      assert (Hgo : bool_decide ((replicate k ".." ++ rest) ++ [x] = []) ||
                    bool_decide (last ((replicate k ".." ++ rest) ++ [x]) = Some "..")
                    = false).
      { apply orb_false_iff. split; apply bool_decide_eq_false.
        - intros H. apply (f_equal length) in H. rewrite length_app in H.
          simpl in H. lia.
        - rewrite last_snoc. intros [= ->]. now destruct Hx as (_ & _ & H & _). }
      rewrite Hgo, removelast_last. apply IH. now exists k, rest.
  - destruct Hacc as (k & rest & -> & Hrest). apply IH.
    exists k, (rest ++ [comp]). split; [now rewrite app_assoc|].
    apply Forall_app. split; [exact Hrest|]. apply Forall_singleton.
    now repeat split.
Qed.

Lemma join_cons_nonempty (x : string) (l : list string) :
  x <> "" -> String.eqb (PyStr.join "/" (x :: l)) "" = false.
Proof. intros Hx. destruct x; [congruence|]. now destruct l. Qed.

(** A normalised path that [safe_join] lets through walks below its
    starting directory only. *)
Lemma normpath_inside (path : string) :
  PyStr.startswith "/" (PosixPath.normpath path) = false ->
  String.eqb (PosixPath.normpath path) ".." = false ->
  PyStr.startswith "../" (PosixPath.normpath path) = false ->
  stays_inside 0 (PyStr.split "/" (PosixPath.normpath path)) = true.
Proof.
  unfold PosixPath.normpath.
  destruct (String.eqb path ""); [reflexivity|]. cbv zeta.
  unfold PosixPath.initial_slashes.
  destruct (PyStr.startswith "/" path).
  { destruct (PyStr.startswith "//" path && negb (PyStr.startswith "///" path));
      discriminate. }
  change (PyStr.join "" (replicate 0 "/") +:+ ?x) with x.
  destruct (normpath_loop_climbing (PyStr.split "/" path) [])
    as (k & rest & -> & Hrest).
  { apply split_components. }
  { exists 0%nat, []. split; [reflexivity | constructor]. }
  destruct k as [|k].
  - cbn [replicate app]. destruct rest as [|x rest]; [reflexivity|].
    assert (Hx : x <> "") by (apply Forall_inv in Hrest; apply Hrest).
    rewrite (join_cons_nonempty x rest Hx). intros _ _ _.
    rewrite split_join.
    + now apply stays_inside_plain.
    + discriminate.
    + eapply Forall_impl; [exact Hrest|]. intros c Hc. apply Hc.
  - cbn [replicate app]. rewrite join_cons_nonempty by discriminate.
    destruct (replicate k ".." ++ rest); discriminate.
Qed.

(** ** The result server *)

Lemma strip_prefix_append (p s : string) : strip_prefix p (p +:+ s) = Some s.
Proof. induction p as [|a p IH]; simpl; [reflexivity|]. now rewrite Ascii.eqb_refl. Qed.

(** Joining a directory with a relative path that starts with a plain
    first component appends below the joined first component. *)
Lemma join_relative (root rel : string) :
  PosixPath.join root ("output/" +:+ rel)
  = PosixPath.join root "output" +:+ "/" +:+ rel.
Proof.
  unfold PosixPath.join. cbn [PyStr.startswith String.append Ascii.eqb andb Bool.eqb].
  change ("output/" +:+ rel) with ("output" +:+ "/" +:+ rel).
  destruct (String.eqb root "" || PyStr.endswith "/" root);
    now rewrite ?append_assoc.
Qed.

Lemma safe_join_output (path p : string) :
  Werkzeug.safe_join OUTPUT_FOLDER path = Some p ->
  exists rel, p = "output/" +:+ rel
              /\ stays_inside 0 (PyStr.split "/" rel) = true.
Proof.
  unfold Werkzeug.safe_join, OUTPUT_FOLDER, PosixPath.isabs, Werkzeug._os_alt_seps.
  cbn [String.eqb Ascii.eqb Bool.eqb existsb orb].
  destruct (String.eqb_spec path "") as [->|_]; cbn [negb].
  - intros [= <-]. now exists "".
  - destruct (PyStr.startswith "/" (PosixPath.normpath path)) eqn:Habs;
      [discriminate|].
    destruct (String.eqb (PosixPath.normpath path) "..") eqn:Hup; [discriminate|].
    destruct (PyStr.startswith "../" (PosixPath.normpath path)) eqn:Hups;
      [discriminate|].
    cbn [orb]. intros [= <-]. exists (PosixPath.normpath path). split.
    + unfold PosixPath.join. now rewrite Habs.
    + now apply normpath_inside.
Qed.

(** C5: whatever path is given to GET /results/<path>, a file that is
    served lies under the results root: its name is the root followed by
    a relative path that never steps above the root.  A traversal such as
    ../../secret is answered with "not found". *)
Theorem send_result_confined (path served : string) (w : World) :
  fst (send_result path w) = Ok served ->
  confined (PosixPath.join (root_path w) OUTPUT_FOLDER) served = true
  /\ isfile w served = true
  /\ send_result "../../secret" w = (Raise (Exception "NotFound" "404 Not Found"), w).
Proof.
  unfold send_result, Werkzeug.send_from_directory. intros H. split_and!; [| |reflexivity].
  - destruct (Werkzeug.safe_join OUTPUT_FOLDER path) as [p|] eqn:Hsafe; [|discriminate].
    destruct (safe_join_output path p Hsafe) as (rel & -> & Hrel).
    destruct (isfile w _); [|discriminate]. cbn [negb fst] in H. injection H as <-.
    change (PosixPath.join (root_path w) ?x)
      with (PosixPath.join (root_path w) ("output/" +:+ rel)) at 2.
    rewrite join_relative. unfold confined, OUTPUT_FOLDER.
    rewrite <- append_assoc, strip_prefix_append. exact Hrel.
  - destruct (Werkzeug.safe_join OUTPUT_FOLDER path) as [p|]; [|discriminate].
    destruct (isfile w _) eqn:E; [|discriminate]. cbn [negb fst] in H.
    injection H as <-. exact E.
Qed.

Lemma send_result_confined_score :
  confined "/srv/app/output" "/srv/app/output/J/score.mxl" = true.
Proof.
  destruct (send_result_confined "J/x/../score.mxl" "/srv/app/output/J/score.mxl"
              song_world) as (H & _).
  - reflexivity.
  - exact H.
Defined.

(** ** Where uploads are written *)

(** C9: the upload is saved at [os.path.join] of the intake directory and
    the filename as the client sent it, and nothing keeps that path in the
    intake directory: "../x.pdf" passes the extension check and is written
    to uploads/../x.pdf, outside uploads, whereas the result server
    refuses the same path. *)
Theorem upload_path_not_confined :
  (forall request file w w' o p data,
      valid_upload request file ->
      process_sheet_music request w = (o, w') ->
      EvSave p data ∈ effects w w' ->
      p = PosixPath.join UPLOAD_FOLDER (filename file) /\ data = stream file)
  /\ allowed_file "../x.pdf" = Ok true
  /\ PosixPath.join UPLOAD_FOLDER "../x.pdf" = "uploads/../x.pdf"
  /\ EvSave "uploads/../x.pdf" [x25; x50; x44; x46]
       ∈ effects song_world (snd (process_sheet_music (upload "../x.pdf") song_world))
  /\ confined UPLOAD_FOLDER "uploads/../x.pdf" = false
  /\ PosixPath.normpath "uploads/../x.pdf" = "x.pdf"
  /\ fst (send_result "../x.pdf" song_world) = Raise (Exception "NotFound" "404 Not Found").
Proof.
  split_and!.
  - intros request file w w' o p data Hvalid Hrun Hin.
    rewrite (process_valid_effects request file w w' o Hvalid Hrun) in Hin.
    destruct (makedirs_error w _); [in_effects Hin|].
    destruct (save_error w _ _); in_effects Hin; now injection Hin.
  - vm_compute. reflexivity.
  - reflexivity.
  - assert (H : effects song_world
                  (snd (process_sheet_music (upload "../x.pdf") song_world))
                = [EvUuid4 (next_job_id song_world);
                   EvMakedirs (PosixPath.join OUTPUT_FOLDER (next_job_id song_world));
                   EvSave "uploads/../x.pdf" [x25; x50; x44; x46];
                   EvRun (engine_command "../x.pdf" (next_job_id song_world))])
      by (vm_compute; reflexivity).
    rewrite H. apply elem_of_cons; right. apply elem_of_cons; right.
    apply elem_of_cons; now left.
  - reflexivity.
  - reflexivity.
  - reflexivity.
Qed.

(** ** Job identifiers *)

Section UuidFacts.

Lemma hex_digit_code (d : Z) :
  0 <= d < 16 ->
  nat_of_ascii (Uuid.hex_digit d)
  = if d <? 10 then Z.to_nat (48 + d) else Z.to_nat (87 + d).
Proof.
  intros Hd. unfold Uuid.hex_digit.
  destruct (d <? 10); apply nat_ascii_embedding; lia.
Qed.








Lemma contains_take (c : ascii) (n : nat) (s : string) :
  PyStr.contains c s = false -> PyStr.contains c (PyStr.take n s) = false.
Proof.
  revert s. induction n as [|n IH]; intros [|a s]; simpl; auto.
  destruct (Ascii.eqb a c); [discriminate | apply IH].
Qed.

Lemma contains_drop (c : ascii) (n : nat) (s : string) :
  PyStr.contains c s = false -> PyStr.contains c (PyStr.drop n s) = false.
Proof.
  revert s. induction n as [|n IH]; intros [|a s]; simpl; auto.
  destruct (Ascii.eqb a c); [discriminate | apply IH].
Qed.









End UuidFacts.






(** * Further properties of the handlers *)

(** ** Every request is either rejected or valid *)

Lemma allowed_file_total (filename : string) :
  allowed_file filename = Ok true \/ allowed_file filename = Ok false.
Proof.
  destruct (PyStr.contains "." filename) eqn:E.
  - destruct (contains_last_split _ _ E) as (stem & ext & -> & Hext).
    rewrite (allowed_file_split stem ext Hext).
    destruct (bool_decide _); auto.
  - right. now apply allowed_file_no_dot.
Qed.

Lemma request_cases (request : Request) :
  (exists file, valid_upload request file) \/ rejected_upload request.
Proof.
  unfold valid_upload, rejected_upload.
  destruct (multidict_get "file" (files request)) as [file|]; [|now right; left].
  destruct (allowed_file_total (filename file)) as [H|H].
  - left. now exists file.
  - right. right. exists file. auto.
Qed.

Lemma valid_not_rejected (request : Request) (file : FileStorage) :
  valid_upload request file -> ~ rejected_upload request.
Proof.
  intros [Hget Hok] [Hnone | (file' & Hget' & Hbad)]; [congruence|].
  assert (file' = file) as -> by congruence.
  destruct Hbad as [Hempty | Hrej]; [|congruence].
  rewrite Hempty in Hok. discriminate.
Qed.

(** A rejected request is answered 400 with one "error" field, and the
    world is returned as it was. *)
Lemma process_rejected_run (request : Request) (w : World) :
  rejected_upload request ->
  exists msg,
    process_sheet_music request w = (Ok (mkResponse {[ "error" := msg ]} 400), w).
Proof.
  unfold process_sheet_music, multidict_contains, multidict_getitem, file_truthy,
    mbind, M_bind, mret, M_ret, lift.
  intros [Hnone | (file & Hget & Hbad)].
  - rewrite Hnone. cbn [negb]. eauto.
  - rewrite Hget. cbn [negb]. cbv beta iota.
    destruct (String.eqb_spec (filename file) "") as [Hempty|Hne]; [eauto|].
    destruct Hbad as [Hempty|Hrej]; [contradiction|].
    cbn [negb]. rewrite Hrej. cbv beta iota. eauto.
Qed.

(** ** What a response tells the client *)

(** X1: a 200 response is only ever sent after the engine was run for a
    valid upload and exited with code zero. *)
Theorem success_needs_engine_success (request : Request) (w w' : World)
    (resp : Response) :
  process_sheet_music request w = (Ok resp, w') ->
  status resp = 200 ->
  exists file out err,
    valid_upload request file
    /\ EvRun (engine_command (filename file) (next_job_id w)) ∈ effects w w'
    /\ engine w (engine_command (filename file) (next_job_id w)) = Exited 0 out err.
Proof.
  intros Hrun Hstatus.
  destruct (request_cases request) as [[file Hvalid] | Hrej].
  - destruct (process_valid_run request file w Hvalid) as (w1 & _ & _ & _ & _ & _ & H).
    destruct (makedirs_error w _); [destruct H as [H _]; congruence|].
    destruct (save_error w _ _); [destruct H as [H _]; congruence|].
    destruct H as [Heff H]. rewrite Hrun in H. injection H as Hresp <-.
    destruct (engine w _) as [rc out err|cls msg] eqn:Heng;
      [|subst resp; discriminate Hstatus].
    destruct (Z.eqb_spec rc 0) as [->|_]; [|subst resp; discriminate Hstatus].
    exists file, out, err. split_and!; [assumption | | exact Heng].
    rewrite Heff. do 3 (apply elem_of_cons; right). apply elem_of_cons. now left.
  - destruct (process_rejected_run request w Hrej) as [msg H].
    rewrite Hrun in H. injection H as -> _. discriminate Hstatus.
Qed.

(** X2: a 400 response is only ever sent for a rejected request, and then
    nothing has happened: the world is as before. *)
Theorem bad_request_only_when_rejected (request : Request) (w w' : World)
    (resp : Response) :
  process_sheet_music request w = (Ok resp, w') ->
  status resp = 400 ->
  rejected_upload request /\ w' = w.
Proof.
  intros Hrun Hstatus.
  destruct (request_cases request) as [[file Hvalid] | Hrej].
  - destruct (process_valid_run request file w Hvalid) as (w1 & _ & _ & _ & _ & _ & H).
    destruct (makedirs_error w _); [destruct H as [H _]; congruence|].
    destruct (save_error w _ _); [destruct H as [H _]; congruence|].
    destruct H as [_ H]. rewrite Hrun in H. injection H as Hresp _. subst resp.
    destruct (engine w _) as [rc out err|cls msg]; [destruct (rc =? 0)|];
      discriminate Hstatus.
  - split; [exact Hrej|].
    destruct (process_rejected_run request w Hrej) as [msg H]. congruence.
Qed.

(** X4: every response has status 200, 400 or 500; the 200 body has no
    "error" field and every other body has one. *)
Theorem error_field_iff_failure (request : Request) (w w' : World) (resp : Response) :
  process_sheet_music request w = (Ok resp, w') ->
  (status resp = 200 /\ json resp !! "error" = None)
  \/ ((status resp = 400 \/ status resp = 500) /\ is_Some (json resp !! "error")).
Proof.
  intros Hrun.
  destruct (request_cases request) as [[file Hvalid] | Hrej].
  - destruct (process_valid_run request file w Hvalid) as (w1 & _ & _ & _ & _ & _ & H).
    destruct (makedirs_error w _); [destruct H as [H _]; congruence|].
    destruct (save_error w _ _); [destruct H as [H _]; congruence|].
    destruct H as [_ H]. rewrite Hrun in H. injection H as Hresp _. subst resp.
    destruct (engine w _) as [rc out err|cls msg]; [destruct (rc =? 0)|];
      cbn [status json].
    + left. split; [reflexivity|].
      rewrite !lookup_insert_ne by discriminate. now apply lookup_singleton_ne.
    + right. split; [now right|]. rewrite lookup_insert_eq. eauto.
    + right. split; [now right|]. rewrite lookup_singleton_eq. eauto.
  - destruct (process_rejected_run request w Hrej) as [msg H].
    rewrite Hrun in H. injection H as -> _. cbn [status json].
    right. split; [now left|]. rewrite lookup_singleton_eq. eauto.
Qed.

(** X5: whenever the engine is run, its command line is the configured
    executable, -batch, -run, the path the upload was just saved to,
    -export, -output and the directory that was just created. *)
Theorem engine_runs_on_saved_upload (request : Request) (w w' : World)
    (o : Outcome Response) (cmd : list string) :
  process_sheet_music request w = (o, w') ->
  EvRun cmd ∈ effects w w' ->
  exists input_path data output_dir,
    cmd = [AUDIVERIS_PATH; "-batch"; "-run"; input_path; "-export"; "-output"; output_dir]
    /\ EvSave input_path data ∈ effects w w'
    /\ EvMakedirs output_dir ∈ effects w w'
    /\ happens_before is_save is_run (effects w w')
    /\ happens_before is_makedirs is_run (effects w w').
Proof.
  intros Hrun Hin.
  destruct (request_cases request) as [[file Hvalid] | Hrej].
  - destruct (process_engine_ran _ _ _ _ _ _ Hvalid Hrun Hin) as (-> & Heff & _).
    rewrite Heff. eexists _, _, _. split_and!; [reflexivity | | | |].
    + do 2 (apply elem_of_cons; right). apply elem_of_cons. now left.
    + apply elem_of_cons; right. apply elem_of_cons. now left.
    + exists 2%nat, 3%nat. split_and!; (reflexivity || lia).
    + exists 1%nat, 3%nat. split_and!; (reflexivity || lia).
  - destruct (process_rejected_run request w Hrej) as [msg H].
    rewrite Hrun in H. injection H as _ <-.
    unfold effects in Hin. rewrite drop_all in Hin. now apply elem_of_nil in Hin.
Qed.

(** ** Start-up *)

(** X6: [create_folders] asks for the intake directory first and for the
    results directory second; when the first cannot be created the
    exception propagates and the second is not attempted.  It draws no
    random bytes. *)
Theorem create_folders_steps (w : World) :
  draws (snd (create_folders w)) = draws w
  /\ match makedirs_error w UPLOAD_FOLDER with
     | Some e =>
         fst (create_folders w) = Raise e
         /\ effects w (snd (create_folders w)) = [EvMakedirs UPLOAD_FOLDER]
     | None =>
         effects w (snd (create_folders w))
         = [EvMakedirs UPLOAD_FOLDER; EvMakedirs OUTPUT_FOLDER]
         /\ fst (create_folders w)
            = match makedirs_error w OUTPUT_FOLDER with
              | Some e => Raise e
              | None => Ok tt
              end
     end.
Proof.
  unfold create_folders, os_makedirs, mbind, M_bind.
  destruct (makedirs_error w UPLOAD_FOLDER) as [e|]; world_step.
  - split_and!; try reflexivity.
    apply effects_app. reflexivity.
  - destruct (makedirs_error w OUTPUT_FOLDER) as [e|]; split_and!; try reflexivity;
      apply effects_app; cbn [snd trace log]; now rewrite <- app_assoc.
Qed.

(** ** Base names of ordinary filenames *)

Lemma length_append (s t : string) :
  String.length (s +:+ t) = (String.length s + String.length t)%nat.
Proof. induction s; simpl; congruence. Qed.

(** [p[i:i+1]] is the character at index [i]. *)
Lemma slice_at (pre tail : string) (c : ascii) :
  PyStr.slice (Z.of_nat (String.length pre)) (Z.of_nat (String.length pre) + 1)
    (pre +:+ String c tail)
  = String c "".
Proof.
  unfold PyStr.slice. rewrite !bound_nonneg by lia.
  rewrite Nat2Z.id, drop_append.
  replace (Z.to_nat (Z.of_nat (String.length pre) + 1) - String.length pre)%nat
    with 1%nat by lia.
  reflexivity.
Qed.

Lemma all_dots_split (name : string) :
  all_dots name = false ->
  exists dots c tail,
    name = dots +:+ String c tail /\ all_dots dots = true /\ c <> "."%char.
Proof.
  induction name as [|a name IH]; simpl; [discriminate|].
  destruct (Ascii.eqb_spec a ".") as [->|Hne]; simpl.
  - intros H. destruct (IH H) as (dots & c & tail & -> & Hdots & Hc).
    exists (String "." dots), c, tail. simpl. now rewrite Hdots.
  - intros _. now exists "", a, name.
Qed.

(** The scan of [_splitext] stops at the first character that is not a
    dot and splits at [dotIndex]. *)
Lemma splitext_scan_finds (p : string) (dotIndex : Z) (dots : string) :
  forall (pre : string) (c : ascii) (tail : string) (n : nat),
    p = pre +:+ dots +:+ String c tail ->
    all_dots dots = true ->
    c <> "."%char ->
    (String.length dots < n)%nat ->
    PosixPath._splitext_scan p dotIndex (Z.of_nat (String.length pre)) n
    = (PyStr.upto dotIndex p, PyStr.from dotIndex p).
Proof.
  induction dots as [|a dots IH]; intros pre c tail n Hp Hdots Hc Hn;
    (destruct n as [|n]; [simpl in Hn; lia|]).
  - simpl. rewrite Hp at 1. change ("" +:+ String c tail) with (String c tail).
    rewrite slice_at. destruct (String.eqb_spec (String c "") ".") as [[=]|_];
      [contradiction | reflexivity].
  - simpl in Hdots. apply andb_true_iff in Hdots as [Ha Hdots].
    apply Ascii.eqb_eq in Ha as ->.
    simpl. rewrite Hp at 1. change (String "." dots +:+ String c tail)
      with (String "." (dots +:+ String c tail)).
    rewrite slice_at. cbn [String.eqb Ascii.eqb Bool.eqb negb].
    replace (Z.of_nat (String.length pre) + 1)
      with (Z.of_nat (String.length (pre +:+ "."))) by (rewrite length_append; simpl; lia).
    apply (IH (pre +:+ ".") c tail n); [|assumption..|simpl in Hn; lia].
    rewrite Hp, !append_assoc. reflexivity.
Qed.

(** A scan over dots only runs to the end and splits nothing. *)
Lemma splitext_scan_dots (p : string) (dotIndex : Z) (dots : string) :
  forall (pre tail : string),
    p = pre +:+ dots +:+ tail ->
    all_dots dots = true ->
    PosixPath._splitext_scan p dotIndex (Z.of_nat (String.length pre))
      (String.length dots)
    = (p, "").
Proof.
  induction dots as [|a dots IH]; intros pre tail Hp Hdots; [reflexivity|].
  simpl in Hdots. apply andb_true_iff in Hdots as [Ha Hdots].
  apply Ascii.eqb_eq in Ha as ->.
  simpl. rewrite Hp at 1. change (String "." dots +:+ tail)
    with (String "." (dots +:+ tail)).
  rewrite slice_at. cbn [String.eqb Ascii.eqb Bool.eqb negb].
  replace (Z.of_nat (String.length pre) + 1)
    with (Z.of_nat (String.length (pre +:+ "."))) by (rewrite length_append; simpl; lia).
  apply (IH (pre +:+ ".") tail); [|assumption].
  rewrite Hp, !append_assoc. reflexivity.
Qed.

Lemma all_dots_sep_free (s : string) : all_dots s = true -> sep_free "/" s.
Proof.
  unfold sep_free. induction s as [|a s IH]; simpl; [reflexivity|].
  intros H. apply andb_true_iff in H as [Ha Hs]. apply Ascii.eqb_eq in Ha as ->.
  simpl. auto.
Qed.

(** After a directory prefix, the last "/" is the one that ends the prefix. *)
Lemma rfind_sep_prefix (prefix rest : string) :
  prefix = "" \/ (exists d, prefix = d +:+ "/") ->
  sep_free "/" rest ->
  PyStr.rfind "/" (prefix +:+ rest) + 1 = Z.of_nat (String.length prefix).
Proof.
  intros [-> | [d ->]] Hrest.
  - apply rfind_nat_None in Hrest. unfold PyStr.rfind. simpl. now rewrite Hrest.
  - rewrite append_assoc. change ("/" +:+ rest) with (String "/" rest).
    rewrite (rfind_nonneg _ _ _ (rfind_nat_append "/" d rest Hrest)).
    rewrite length_append. simpl. lia.
Qed.

Lemma splitext_ordinary (prefix name ext : string) :
  prefix = "" \/ (exists d, prefix = d +:+ "/") ->
  sep_free "/" name ->
  all_dots name = false ->
  PyStr.contains "." ext = false ->
  sep_free "/" ext ->
  PosixPath.splitext (prefix +:+ name +:+ "." +:+ ext)
  = (prefix +:+ name, "." +:+ ext).
Proof.
  intros Hprefix Hname Hdots Hext Hsep.
  change ("." +:+ ext) with (String "." ext).
  unfold PosixPath.splitext, PosixPath._splitext.
  assert (Hrest : sep_free "/" (name +:+ String "." ext)).
  { unfold sep_free in *. rewrite contains_append, Hname. simpl. exact Hsep. }
  pose proof (rfind_sep_prefix prefix _ Hprefix Hrest) as Hsepidx.
  assert (Hdot : PyStr.rfind "." (prefix +:+ name +:+ String "." ext)
                 = Z.of_nat (String.length (prefix +:+ name))).
  { rewrite <- append_assoc. apply rfind_nonneg. now apply rfind_nat_append. }
  rewrite Hdot. rewrite length_append in *.
  destruct (Z.ltb_spec (PyStr.rfind "/" (prefix +:+ name +:+ String "." ext))
              (Z.of_nat (String.length prefix + String.length name))); [|lia].
  rewrite Hsepidx.
  destruct (all_dots_split name Hdots) as (dots & c & tail & Hn & Hd & Hc).
  rewrite (splitext_scan_finds _ _ dots prefix c (tail +:+ String "." ext)).
  - rewrite <- length_append, upto_of_nat, from_of_nat, <- append_assoc.
    now rewrite take_append, drop_append.
  - rewrite Hn, !append_assoc. reflexivity.
  - exact Hd.
  - exact Hc.
  - rewrite Hn, length_append. simpl. lia.
Qed.

Lemma lower_contains_slash (s : string) :
  PyStr.contains "/" (PyStr.lower s) = PyStr.contains "/" s.
Proof.
  induction s as [|a s IH]; simpl; auto. rewrite IH. f_equal.
  destruct a as [[] [] [] [] [] [] [] []]; reflexivity.
Qed.

Lemma allowed_ext_sep_free (ext : string) :
  PyStr.lower ext ∈ ALLOWED_EXTENSIONS -> sep_free "/" ext.
Proof.
  intros H. unfold sep_free. rewrite <- lower_contains_slash.
  unfold ALLOWED_EXTENSIONS in H.
  rewrite !elem_of_union, !elem_of_singleton in H.
  destruct H as [[[-> | ->] | ->] | ->]; reflexivity.
Qed.

(** X7: for a filename [dir/]name.ext whose extension is allowed and
    whose name (the part between the last "/" and the last ".") is not
    made of dots only, the validator and [os.path.splitext] agree on the
    extension: the upload is accepted and the base name used for the
    output paths is the filename without ".ext". *)
Theorem ordinary_name_base (prefix name ext : string) :
  prefix = "" \/ (exists d, prefix = d +:+ "/") ->
  sep_free "/" name ->
  all_dots name = false ->
  PyStr.lower ext ∈ ALLOWED_EXTENSIONS ->
  allowed_file (prefix +:+ name +:+ "." +:+ ext) = Ok true
  /\ PosixPath.splitext (prefix +:+ name +:+ "." +:+ ext)
     = (prefix +:+ name, "." +:+ ext).
Proof.
  intros Hprefix Hname Hdots Hext. split.
  - rewrite <- append_assoc. change ("." +:+ ext) with (String "." ext).
    rewrite allowed_file_split by now apply allowed_ext_no_dot.
    f_equal. now apply bool_decide_eq_true.
  - apply splitext_ordinary; auto using allowed_ext_no_dot, allowed_ext_sep_free.
Qed.

(** X8: when the name in front of the last "." is made of dots only (or
    is empty), [os.path.splitext] strips nothing, although the validator
    looks at the part after the last ".": the base name is the whole
    filename. *)
Theorem dotted_name_base (prefix dots ext : string) :
  prefix = "" \/ (exists d, prefix = d +:+ "/") ->
  all_dots dots = true ->
  PyStr.contains "." ext = false ->
  sep_free "/" ext ->
  allowed_file (prefix +:+ dots +:+ "." +:+ ext)
  = Ok (bool_decide (PyStr.lower ext ∈ ALLOWED_EXTENSIONS))
  /\ PosixPath.splitext (prefix +:+ dots +:+ "." +:+ ext)
     = (prefix +:+ dots +:+ "." +:+ ext, "").
Proof.
  intros Hprefix Hdots Hext Hsep. change ("." +:+ ext) with (String "." ext). split.
  - rewrite <- append_assoc. now apply allowed_file_split.
  - unfold PosixPath.splitext, PosixPath._splitext.
    assert (Hrest : sep_free "/" (dots +:+ String "." ext)).
    { unfold sep_free in *. rewrite contains_append, (all_dots_sep_free dots Hdots).
      simpl. exact Hsep. }
    pose proof (rfind_sep_prefix prefix _ Hprefix Hrest) as Hsepidx.
    assert (Hdot : PyStr.rfind "." (prefix +:+ dots +:+ String "." ext)
                   = Z.of_nat (String.length (prefix +:+ dots))).
    { rewrite <- append_assoc. apply rfind_nonneg. now apply rfind_nat_append. }
    rewrite Hdot. rewrite length_append in *.
    destruct (Z.ltb_spec (PyStr.rfind "/" (prefix +:+ dots +:+ String "." ext))
                (Z.of_nat (String.length prefix + String.length dots))); [|reflexivity].
    rewrite Hsepidx.
    replace (Z.to_nat (Z.of_nat (String.length prefix + String.length dots)
                       - Z.of_nat (String.length prefix)))
      with (String.length dots) by lia.
    now apply (splitext_scan_dots _ _ dots prefix (String "." ext)).
Qed.

(** ** The shape of a job identifier *)

Lemma length_take (n : nat) (s : string) :
  String.length (PyStr.take n s) = Nat.min n (String.length s).
Proof. revert s. induction n as [|n IH]; intros [|a s]; simpl; auto. Qed.

Lemma length_drop (n : nat) (s : string) :
  String.length (PyStr.drop n s) = (String.length s - n)%nat.
Proof. revert s. induction n as [|n IH]; intros [|a s]; simpl; auto. Qed.

Lemma length_hex (n : nat) (x : Z) : String.length (Uuid.hex n x) = n.
Proof.
  revert x. induction n as [|n IH]; intros x; simpl; [reflexivity|].
  rewrite length_append, IH. simpl. lia.
Qed.

(** A character that is neither a hex digit nor a dash does not occur
    in a rendered UUID. *)
Lemma hex_lacks (c : ascii) (n : nat) (x : Z) :
  (nat_of_ascii c < 48)%nat -> PyStr.contains c (Uuid.hex n x) = false.
Proof.
  intros Hc. revert x. induction n as [|n IH]; intros x; simpl; [reflexivity|].
  rewrite contains_append, IH. simpl.
  assert (H : Ascii.eqb (Uuid.hex_digit (x mod 16)) c = false).
  { apply Ascii.eqb_neq. intros Heq. apply (f_equal nat_of_ascii) in Heq.
    pose proof (Z.mod_pos_bound x 16 ltac:(lia)) as Hd.
    rewrite hex_digit_code in Heq by assumption.
    destruct (x mod 16 <? 10); lia. }
  now rewrite H.
Qed.

Lemma to_str_pieces (x : Z) :
  Uuid.to_str x
  = PyStr.take 8 (Uuid.hex 32 x) +:+ "-"
    +:+ PyStr.take 4 (PyStr.drop 8 (Uuid.hex 32 x)) +:+ "-"
    +:+ PyStr.take 4 (PyStr.drop 12 (Uuid.hex 32 x)) +:+ "-"
    +:+ PyStr.take 4 (PyStr.drop 16 (Uuid.hex 32 x)) +:+ "-"
    +:+ PyStr.drop 20 (Uuid.hex 32 x).
Proof.
  unfold Uuid.to_str. generalize (Uuid.hex 32 x). intros h. reflexivity.
Qed.

Lemma to_str_length (x : Z) : String.length (Uuid.to_str x) = 36%nat.
Proof.
  rewrite to_str_pieces.
  rewrite !length_append, !length_take, !length_drop, !length_hex. reflexivity.
Qed.

Lemma to_str_sep_free (x : Z) : sep_free "/" (Uuid.to_str x).
Proof.
  unfold sep_free. rewrite to_str_pieces.
  assert (Hh : PyStr.contains "/" (Uuid.hex 32 x) = false)
    by (apply hex_lacks; change (nat_of_ascii "/") with 47%nat; lia).
  revert Hh. generalize (Uuid.hex 32 x). intros h Hh.
  rewrite !contains_append.
  rewrite !contains_take, contains_drop by auto using contains_drop.
  reflexivity.
Qed.

Lemma to_str_plain (x : Z) : plain (Uuid.to_str x).
Proof.
  pose proof (to_str_length x) as Hlen.
  split_and!; try (intros Heq; rewrite Heq in Hlen; discriminate Hlen).
  apply to_str_sep_free.
Qed.

Lemma sep_free_relative (s : string) :
  sep_free "/" s -> PyStr.startswith "/" s = false.
Proof.
  unfold sep_free. destruct s as [|a s]; [reflexivity|].
  cbn [PyStr.contains PyStr.startswith].
  rewrite (Ascii.eqb_sym "/" a). now destruct (Ascii.eqb a "/").
Qed.

Lemma join_output_relative (rel : string) :
  PyStr.startswith "/" rel = false ->
  PosixPath.join OUTPUT_FOLDER rel = "output/" +:+ rel.
Proof. intros H. unfold PosixPath.join. now rewrite H. Qed.

(** X9: whenever the handler creates a directory, it is the directory
    named by the job identifier directly under the results root; the
    identifier has 36 characters, none of them a "/", so the job
    directory cannot lie outside the results root. *)
Theorem job_directory_under_output (request : Request) (w w' : World)
    (o : Outcome Response) (dir : string) :
  process_sheet_music request w = (o, w') ->
  EvMakedirs dir ∈ effects w w' ->
  dir = "output/" +:+ next_job_id w
  /\ String.length (next_job_id w) = 36%nat
  /\ PyStr.split "/" dir = ["output"; next_job_id w]
  /\ confined OUTPUT_FOLDER dir = true.
Proof.
  intros Hrun Hin.
  destruct (request_cases request) as [[file Hvalid] | Hrej].
  - rewrite (process_valid_effects request file w w' o Hvalid Hrun) in Hin.
    assert (Hdir : dir = "output/" +:+ next_job_id w).
    { apply elem_of_cons in Hin as [[=]|Hin].
      apply elem_of_cons in Hin as [Hin|Hin].
      - injection Hin as ->. apply join_output_relative, sep_free_relative.
        apply to_str_sep_free.
      - destruct (makedirs_error w _); [in_effects Hin|].
        destruct (save_error w _ _); in_effects Hin. }
    pose proof (to_str_plain (Uuid.uuid4_int
                  (map (entropy w (draws w)) (seq 0 16)))) as Hplain.
    fold (next_job_id w) in Hplain.
    assert (Hsplit : PyStr.split "/" (next_job_id w) = [next_job_id w])
      by (apply split_sep_free, Hplain).
    subst dir. split_and!.
    + reflexivity.
    + apply to_str_length.
    + change ("output/" +:+ next_job_id w)
        with ("output" +:+ String "/" (next_job_id w)).
      rewrite split_append by reflexivity. now rewrite Hsplit.
    + unfold confined, OUTPUT_FOLDER.
      change ("output/" +:+ next_job_id w) with (("output" +:+ "/") +:+ next_job_id w).
      rewrite strip_prefix_append, Hsplit.
      apply stays_inside_plain. now constructor.
  - destruct (process_rejected_run request w Hrej) as [msg H].
    rewrite Hrun in H. injection H as _ <-.
    unfold effects in Hin. rewrite drop_all in Hin. now apply elem_of_nil in Hin.
Qed.

(** ** Which paths the result server refuses *)

Lemma normpath_loop_climbing_from (k0 : nat) (comps new_comps : list string) :
  Forall (sep_free "/") comps ->
  climbing_from k0 new_comps ->
  climbing_from k0 (PosixPath.normpath_loop 0 comps new_comps).
Proof.
  intros Hcomps. revert new_comps.
  induction Hcomps as [|comp comps Hfree _ IH]; intros acc Hacc; [exact Hacc|].
  simpl. destruct (String.eqb_spec comp "") as [|Hne]; [now apply IH|].
  destruct (String.eqb_spec comp ".") as [|Hnd]; [now apply IH|].
  cbn [orb]. destruct (String.eqb_spec comp "..") as [->|Hndd]; cbn [negb orb].
  - destruct Hacc as (k & rest & Hk & -> & Hrest).
    destruct rest as [|x rest _] using rev_ind.
    + rewrite app_nil_r.
      assert (Hgo : bool_decide (replicate k ".." = []) ||
                    bool_decide (last (replicate k "..") = Some "..") = true).
      { destruct k as [|k]; [reflexivity|].
        apply orb_true_iff. right. apply bool_decide_eq_true.
        rewrite replicate_S_end. apply last_snoc. }
      rewrite Hgo. apply IH. exists (S k), []. split_and!; [lia | | constructor].
      now rewrite app_nil_r, replicate_S_end.
    + apply Forall_app in Hrest as [Hrest Hx]. apply Forall_inv in Hx.
      rewrite app_assoc.
      assert (Hgo : bool_decide ((replicate k ".." ++ rest) ++ [x] = []) ||
                    bool_decide (last ((replicate k ".." ++ rest) ++ [x]) = Some "..")
                    = false).
      { apply orb_false_iff. split; apply bool_decide_eq_false.
        - intros H. apply (f_equal length) in H. rewrite length_app in H.
          simpl in H. lia.
        - rewrite last_snoc. intros [= ->]. now destruct Hx as (_ & _ & H & _). }
      rewrite Hgo, removelast_last. apply IH. now exists k, rest.
  - destruct Hacc as (k & rest & Hk & -> & Hrest). apply IH.
    exists k, (rest ++ [comp]). split_and!; [lia | now rewrite app_assoc |].
    apply Forall_app. split; [exact Hrest|]. apply Forall_singleton.
    now repeat split.
Qed.

(** A walk that stays inside leaves plain components only. *)
Lemma normpath_loop_inside (comps new_comps : list string) :
  Forall (sep_free "/") comps ->
  Forall plain new_comps ->
  stays_inside (length new_comps) comps = true ->
  Forall plain (PosixPath.normpath_loop 0 comps new_comps).
Proof.
  intros Hcomps. revert new_comps.
  induction Hcomps as [|comp comps Hfree _ IH]; intros acc Hacc Hin; [exact Hacc|].
  simpl in *. destruct (String.eqb_spec comp "") as [|Hne]; [now apply IH|].
  destruct (String.eqb_spec comp ".") as [|Hnd]; [now apply IH|].
  cbn [orb] in *. destruct (String.eqb_spec comp "..") as [->|Hndd]; cbn [negb orb].
  - destruct acc as [|x acc _] using rev_ind; [discriminate Hin|].
    apply Forall_app in Hacc as [Hacc Hx]. apply Forall_inv in Hx.
    rewrite length_app in Hin. simpl in Hin.
    replace (length acc + 1)%nat with (S (length acc)) in Hin by lia.
    assert (Hgo : bool_decide (acc ++ [x] = []) ||
                  bool_decide (last (acc ++ [x]) = Some "..") = false).
    { apply orb_false_iff. split; apply bool_decide_eq_false.
      - intros H. apply (f_equal length) in H. rewrite length_app in H.
        simpl in H. lia.
      - rewrite last_snoc. intros [= ->]. now destruct Hx as (_ & _ & H & _). }
    rewrite Hgo, removelast_last. now apply IH.
  - apply IH.
    + apply Forall_app. split; [exact Hacc|]. apply Forall_singleton. now repeat split.
    + rewrite length_app. simpl.
      now replace (length acc + 1)%nat with (S (length acc)) by lia.
Qed.

(** A walk that steps above its start leaves a ".." in front. *)
Lemma normpath_loop_escapes (comps new_comps : list string) :
  Forall (sep_free "/") comps ->
  Forall plain new_comps ->
  stays_inside (length new_comps) comps = false ->
  climbing_from 1 (PosixPath.normpath_loop 0 comps new_comps).
Proof.
  intros Hcomps. revert new_comps.
  induction Hcomps as [|comp comps Hfree Hrest IH]; intros acc Hacc Hout;
    [discriminate Hout|].
  simpl in *. destruct (String.eqb_spec comp "") as [|Hne]; [now apply IH|].
  destruct (String.eqb_spec comp ".") as [|Hnd]; [now apply IH|].
  cbn [orb] in *. destruct (String.eqb_spec comp "..") as [->|Hndd]; cbn [negb orb].
  - destruct acc as [|x acc _] using rev_ind.
    + cbn. apply normpath_loop_climbing_from; [exact Hrest|].
      exists 1%nat, []. split_and!; [lia | reflexivity | constructor].
    + apply Forall_app in Hacc as [Hacc Hx]. apply Forall_inv in Hx.
      rewrite length_app in Hout. simpl in Hout.
      replace (length acc + 1)%nat with (S (length acc)) in Hout by lia.
      assert (Hgo : bool_decide (acc ++ [x] = []) ||
                    bool_decide (last (acc ++ [x]) = Some "..") = false).
      { apply orb_false_iff. split; apply bool_decide_eq_false.
        - intros H. apply (f_equal length) in H. rewrite length_app in H.
          simpl in H. lia.
        - rewrite last_snoc. intros [= ->]. now destruct Hx as (_ & _ & H & _). }
      rewrite Hgo, removelast_last. now apply IH.
  - apply IH.
    + apply Forall_app. split; [exact Hacc|]. apply Forall_singleton. now repeat split.
    + rewrite length_app. simpl.
      now replace (length acc + 1)%nat with (S (length acc)) by lia.
Qed.

(** [normpath] of a relative, non-empty path. *)
Lemma normpath_relative (path : string) :
  path <> "" ->
  PyStr.startswith "/" path = false ->
  PosixPath.normpath path
  = match PosixPath.normpath_loop 0 (PyStr.split "/" path) [] with
    | [] => "."
    | comps => PyStr.join "/" comps
    end.
Proof.
  intros Hne Hrel. unfold PosixPath.normpath, PosixPath.initial_slashes.
  destruct (String.eqb_spec path "") as [|_]; [contradiction|].
  rewrite Hrel. cbv zeta. change (PyStr.join "" (replicate 0 "/") +:+ ?x) with x.
  destruct (normpath_loop_climbing (PyStr.split "/" path) [])
    as (k & rest & Heq & Hrest).
  { apply split_components. }
  { exists 0%nat, []. split; [reflexivity | constructor]. }
  destruct (PosixPath.normpath_loop 0 (PyStr.split "/" path) []) as [|x l];
    [reflexivity|].
  rewrite join_cons_nonempty; [reflexivity|].
  destruct k as [|k]; simpl in Heq.
  - subst rest. apply Forall_inv in Hrest. apply Hrest.
  - injection Heq as -> _. discriminate.
Qed.

Lemma normpath_absolute (path : string) :
  PyStr.startswith "/" path = true ->
  PyStr.startswith "/" (PosixPath.normpath path) = true.
Proof.
  intros Habs. unfold PosixPath.normpath, PosixPath.initial_slashes.
  destruct (String.eqb_spec path "") as [->|_]; [discriminate Habs|].
  rewrite Habs. cbv zeta.
  destruct (PyStr.startswith "//" path && negb (PyStr.startswith "///" path));
    reflexivity.
Qed.

Lemma startswith_spec (p s : string) :
  PyStr.startswith p s = true -> exists t, s = p +:+ t.
Proof.
  revert s. induction p as [|a p IH]; intros s H; [now exists s|].
  destruct s as [|b s]; [discriminate H|]. simpl in H.
  apply andb_true_iff in H as [Hab H]. apply Ascii.eqb_eq in Hab as ->.
  destruct (IH s H) as [t ->]. now exists t.
Qed.

(** The first component of a path is determined by the path. *)
Lemma first_component_inj (x y t u : string) :
  sep_free "/" x -> sep_free "/" y ->
  x +:+ String "/" t = y +:+ String "/" u -> x = y.
Proof.
  intros Hx Hy H. apply (f_equal (PyStr.split "/")) in H.
  rewrite !split_append in H by assumption. now injection H.
Qed.

(** A path whose first component is plain passes the three tests of
    [safe_join]. *)
Lemma join_plain_passes (x : string) (l : list string) :
  plain x ->
  PyStr.startswith "/" (PyStr.join "/" (x :: l)) = false
  /\ String.eqb (PyStr.join "/" (x :: l)) ".." = false
  /\ PyStr.startswith "../" (PyStr.join "/" (x :: l)) = false.
Proof.
  intros (H1 & H2 & H3 & Hfree).
  assert (Hjoin : PyStr.join "/" (x :: l) = x
                  \/ exists t, PyStr.join "/" (x :: l) = x +:+ String "/" t).
  { destruct l; [now left | right; eexists; reflexivity]. }
  split_and!.
  - destruct (PyStr.startswith "/" _) eqn:E; [exfalso | reflexivity].
    apply startswith_spec in E as [t E]. change ("/" +:+ t) with (String "/" t) in E.
    destruct Hjoin as [Hj | [u Hj]]; rewrite Hj in E.
    + unfold sep_free in Hfree. rewrite E in Hfree. discriminate Hfree.
    + destruct x; [congruence|]. injection E as -> _.
      unfold sep_free in Hfree. discriminate Hfree.
  - apply String.eqb_neq. intros E.
    destruct Hjoin as [Hj | [u Hj]]; rewrite Hj in E; [contradiction|].
    apply (f_equal (PyStr.contains "/")) in E.
    rewrite contains_append in E. simpl in E. rewrite orb_true_r in E. discriminate E.
  - destruct (PyStr.startswith "../" _) eqn:E; [exfalso | reflexivity].
    apply startswith_spec in E as [t E].
    change ("../" +:+ t) with (".." +:+ String "/" t) in E.
    destruct Hjoin as [Hj | [u Hj]]; rewrite Hj in E.
    + unfold sep_free in Hfree. rewrite E in Hfree. discriminate Hfree.
    + apply first_component_inj in E; [contradiction | assumption | reflexivity].
Qed.

Lemma join_dotdot_refused (l : list string) :
  String.eqb (PyStr.join "/" (".." :: l)) ".."
  || PyStr.startswith "../" (PyStr.join "/" (".." :: l)) = true.
Proof. now destruct l. Qed.

(** [safe_join] under the results root: refused exactly for an absolute
    path and for one that steps above the root. *)
Lemma safe_join_exact (path : string) :
  Werkzeug.safe_join OUTPUT_FOLDER path
  = if PyStr.startswith "/" path || negb (stays_inside 0 (PyStr.split "/" path))
    then None
    else Some ("output/" +:+ (if String.eqb path "" then ""
                              else PosixPath.normpath path)).
Proof.
  unfold Werkzeug.safe_join, OUTPUT_FOLDER, PosixPath.isabs, Werkzeug._os_alt_seps.
  cbn [String.eqb Ascii.eqb Bool.eqb existsb orb].
  destruct (String.eqb_spec path "") as [->|Hne]; [reflexivity|]. cbn [negb].
  destruct (PyStr.startswith "/" path) eqn:Habs.
  { now rewrite (normpath_absolute path Habs). }
  cbn [orb]. rewrite (normpath_relative path Hne Habs).
  destruct (stays_inside 0 (PyStr.split "/" path)) eqn:Hin; cbn [negb].
  - pose proof (normpath_loop_inside (PyStr.split "/" path) []
                  (split_components "/" path) (List.Forall_nil plain) Hin) as Hplain.
    destruct (PosixPath.normpath_loop 0 (PyStr.split "/" path) []) as [|x l];
      [reflexivity|].
    destruct (join_plain_passes x l (Forall_inv Hplain)) as (-> & -> & ->).
    cbn [orb]. f_equal. apply join_output_relative.
    apply (join_plain_passes x l (Forall_inv Hplain)).
  - destruct (normpath_loop_escapes (PyStr.split "/" path) []
                (split_components "/" path) (List.Forall_nil plain) Hin)
      as (k & rest & Hk & -> & _).
    destruct k as [|k]; [lia|]. cbn [replicate app].
    pose proof (join_dotdot_refused (replicate k ".." ++ rest)) as H.
    rewrite <- (orb_assoc _ (String.eqb _ "..")), H, orb_true_r. reflexivity.
Qed.

(** X10: [send_result] never changes the world.  It answers "not found"
    for every absolute path and for every path whose walk steps above the
    results root, whatever files exist; for every other path it looks for
    the normalised path under the results root and serves it exactly when
    it is a file. *)
Theorem send_result_exact (path : string) (w : World) :
  send_result path w
  = if PyStr.startswith "/" path || negb (stays_inside 0 (PyStr.split "/" path))
    then (Raise (Exception "NotFound" "404 Not Found"), w)
    else if isfile w (served_path w path)
         then (Ok (served_path w path), w)
         else (Raise (Exception "NotFound" "404 Not Found"), w).
Proof.
  unfold send_result, Werkzeug.send_from_directory, served_path.
  rewrite safe_join_exact.
  destruct (PyStr.startswith "/" path || negb (stays_inside 0 (PyStr.split "/" path)));
    [reflexivity|].
  now destruct (isfile w _).
Qed.

(** ** From the response of /process to /results *)

Lemma normpath_loop_plain (comps new_comps : list string) :
  Forall plain comps ->
  PosixPath.normpath_loop 0 comps new_comps = new_comps ++ comps.
Proof.
  intros H. revert new_comps.
  induction H as [|c comps (H1 & H2 & H3 & _) _ IH]; intros acc; simpl.
  - now rewrite app_nil_r.
  - apply String.eqb_neq in H1, H2, H3. rewrite H1, H2, H3. cbn [orb negb].
    rewrite IH, <- app_assoc. reflexivity.
Qed.

(** A path made of plain components is its own normal form. *)
Lemma normpath_plain (x : string) (l : list string) :
  Forall plain (x :: l) ->
  PosixPath.normpath (PyStr.join "/" (x :: l)) = PyStr.join "/" (x :: l).
Proof.
  intros Hplain.
  destruct (join_plain_passes x l (Forall_inv Hplain)) as (Hrel & _ & _).
  rewrite normpath_relative; [| |exact Hrel].
  - rewrite split_join; [|discriminate|].
    + now rewrite normpath_loop_plain.
    + eapply Forall_impl; [exact Hplain|]. intros c Hc. apply Hc.
  - apply String.eqb_neq, join_cons_nonempty. apply (Forall_inv Hplain).
Qed.

Lemma stays_inside_join (x : string) (l : list string) :
  Forall plain (x :: l) ->
  stays_inside 0 (PyStr.split "/" (PyStr.join "/" (x :: l))) = true.
Proof.
  intros Hplain. rewrite split_join; [|discriminate|].
  - now apply stays_inside_plain.
  - eapply Forall_impl; [exact Hplain|]. intros c Hc. apply Hc.
Qed.

(** The first component of [splitext] is the path or a prefix of it. *)
Lemma splitext_scan_fst (p : string) (dotIndex i : Z) (n : nat) :
  fst (PosixPath._splitext_scan p dotIndex i n) = p
  \/ fst (PosixPath._splitext_scan p dotIndex i n) = PyStr.upto dotIndex p.
Proof.
  revert i. induction n as [|n IH]; intros i; simpl; [now left|].
  destruct (negb _); [now right | apply IH].
Qed.

Lemma splitext_sep_free (p : string) :
  sep_free "/" p -> sep_free "/" (fst (PosixPath.splitext p)).
Proof.
  intros Hp. unfold PosixPath.splitext, PosixPath._splitext.
  destruct (_ <? _); [|exact Hp].
  destruct (splitext_scan_fst p (PyStr.rfind "." p) (PyStr.rfind "/" p + 1)
              (Z.to_nat (PyStr.rfind "." p - (PyStr.rfind "/" p + 1)))) as [-> | ->];
    [exact Hp|].
  unfold PyStr.upto. now apply contains_take.
Qed.

(** A slash-free base name followed by a suffix of three letters or more
    is a plain component. *)
Lemma base_with_suffix_plain (base suffix : string) :
  sep_free "/" base -> sep_free "/" suffix ->
  (3 <= String.length suffix)%nat ->
  plain (base +:+ suffix).
Proof.
  intros Hb Hs Hlen.
  assert (Hl : (3 <= String.length (base +:+ suffix))%nat)
    by (rewrite length_append; lia).
  split_and!; try (intros Heq; rewrite Heq in Hl; simpl in Hl; lia).
  unfold sep_free in *. now rewrite contains_append, Hb, Hs.
Qed.

Lemma startswith_append (p t : string) : PyStr.startswith p (p +:+ t) = true.
Proof. induction p as [|a p IH]; simpl; [reflexivity|]. now rewrite Ascii.eqb_refl. Qed.

(** A result path [job/file] of two plain components is looked for, and
    served, where it says. *)
Lemma send_result_two_components (job name : string) (w : World) :
  plain job -> plain name ->
  served_path w (job +:+ "/" +:+ name)
  = PosixPath.join (root_path w) ("output/" +:+ job +:+ "/" +:+ name)
  /\ (isfile w (served_path w (job +:+ "/" +:+ name)) = true ->
      send_result (job +:+ "/" +:+ name) w
      = (Ok (served_path w (job +:+ "/" +:+ name)), w)).
Proof.
  intros Hjob Hname.
  assert (Hplain : Forall plain [job; name])
    by (apply List.Forall_cons; [exact Hjob|];
        apply List.Forall_cons; [exact Hname | apply List.Forall_nil]).
  change (job +:+ "/" +:+ name) with (PyStr.join "/" [job; name]).
  assert (Hne : String.eqb (PyStr.join "/" [job; name]) "" = false)
    by (apply join_cons_nonempty, Hjob).
  split.
  - unfold served_path. now rewrite Hne, normpath_plain.
  - intros Hfile. unfold send_result, Werkzeug.send_from_directory.
    rewrite safe_join_exact, stays_inside_join by assumption.
    destruct (join_plain_passes job [name] Hjob) as (-> & _ & _). cbn [orb negb].
    fold (served_path w (PyStr.join "/" [job; name])). now rewrite Hfile.
Qed.

(** X11: for an upload whose filename has no "/", each of the three
    paths of a 200 response is /results/ followed by a path inside the
    job's directory, and GET /results/ with that path serves exactly the
    file of that name in the job's directory under the results root,
    whenever the engine has produced it. *)
Theorem response_paths_are_served (request : Request) (file : FileStorage)
    (w w' : World) (resp : Response) (key url : string) (w2 : World) :
  valid_upload request file ->
  sep_free "/" (filename file) ->
  process_sheet_music request w = (Ok resp, w') ->
  status resp = 200 ->
  json resp !! key = Some url ->
  exists name,
    url = "/results/" +:+ next_job_id w +:+ "/" +:+ name
    /\ sep_free "/" name
    /\ served_path w2 (next_job_id w +:+ "/" +:+ name)
       = PosixPath.join (root_path w2)
           ("output/" +:+ next_job_id w +:+ "/" +:+ name)
    /\ (isfile w2 (served_path w2 (next_job_id w +:+ "/" +:+ name)) = true ->
        send_result (next_job_id w +:+ "/" +:+ name) w2
        = (Ok (served_path w2 (next_job_id w +:+ "/" +:+ name)), w2)).
Proof.
  intros Hvalid Hfree Hrun Hstatus Hkey.
  destruct (process_valid_run request file w Hvalid) as (w1 & _ & _ & _ & _ & _ & H).
  destruct (makedirs_error w _); [destruct H as [H _]; congruence|].
  destruct (save_error w _ _); [destruct H as [H _]; congruence|].
  destruct H as [_ H]. rewrite Hrun in H. injection H as Hresp _.
  destruct (engine w _) as [rc out err|cls msg]; [|subst resp; discriminate Hstatus].
  destruct (rc =? 0); [|subst resp; discriminate Hstatus].
  subst resp. cbn [json] in Hkey.
  pose proof (to_str_plain (Uuid.uuid4_int (map (entropy w (draws w)) (seq 0 16))))
    as Hjob. fold (next_job_id w) in Hjob.
  pose proof (splitext_sep_free (filename file) Hfree) as Hbase.
  assert (Hsuffix : forall suffix,
             sep_free "/" suffix -> (3 <= String.length suffix)%nat ->
             url = "/results/" +:+ next_job_id w +:+ "/"
                   +:+ fst (PosixPath.splitext (filename file)) +:+ suffix ->
             exists name,
               url = "/results/" +:+ next_job_id w +:+ "/" +:+ name
               /\ sep_free "/" name
               /\ served_path w2 (next_job_id w +:+ "/" +:+ name)
                  = PosixPath.join (root_path w2)
                      ("output/" +:+ next_job_id w +:+ "/" +:+ name)
               /\ (isfile w2 (served_path w2 (next_job_id w +:+ "/" +:+ name)) = true ->
                   send_result (next_job_id w +:+ "/" +:+ name) w2
                   = (Ok (served_path w2 (next_job_id w +:+ "/" +:+ name)), w2))).
  { intros suffix Hs Hlen ->.
    pose proof (base_with_suffix_plain _ suffix Hbase Hs Hlen) as Hname.
    exists (fst (PosixPath.splitext (filename file)) +:+ suffix).
    split_and!; [reflexivity | apply Hname | ..];
      apply (send_result_two_components _ _ w2 Hjob Hname). }
  apply lookup_insert_Some in Hkey as [[_ <-] | [_ Hkey]];
    [apply (Hsuffix ".mxl"); [reflexivity | simpl; lia | reflexivity]|].
  apply lookup_insert_Some in Hkey as [[_ <-] | [_ Hkey]];
    [apply (Hsuffix ".mid"); [reflexivity | simpl; lia | reflexivity]|].
  apply lookup_singleton_Some in Hkey as [_ <-].
  apply (Hsuffix ".mscz"); [reflexivity | simpl; lia | reflexivity].
Qed.

(** ** Uploads with the same name *)

Lemma append_inj_l (s t u : string) : s +:+ t = s +:+ u -> t = u.
Proof. induction s as [|a s IH]; simpl; [auto|]. intros [= H]. auto. Qed.

(** X12: the input path of an upload does not depend on the job: two
    valid uploads with the same filename are saved to the same path, the
    second over the first, while their output directories coincide only
    if their job identifiers do. *)
Theorem same_name_same_input_path (request1 request2 : Request)
    (file1 file2 : FileStorage) (w w1 w2 : World) (o1 o2 : Outcome Response)
    (p1 p2 : string) (d1 d2 : list byte) :
  valid_upload request1 file1 ->
  valid_upload request2 file2 ->
  filename file1 = filename file2 ->
  process_sheet_music request1 w = (o1, w1) ->
  process_sheet_music request2 w1 = (o2, w2) ->
  EvSave p1 d1 ∈ effects w w1 ->
  EvSave p2 d2 ∈ effects w1 w2 ->
  p2 = p1 /\ d1 = stream file1 /\ d2 = stream file2
  /\ (forall dir1 dir2,
         EvMakedirs dir1 ∈ effects w w1 ->
         EvMakedirs dir2 ∈ effects w1 w2 ->
         (dir1 = dir2 <-> next_job_id w = next_job_id w1)).
Proof.
  intros Hv1 Hv2 Hname Hrun1 Hrun2 Hs1 Hs2.
  assert (Hsave : forall request file w w' o p d,
             valid_upload request file ->
             process_sheet_music request w = (o, w') ->
             EvSave p d ∈ effects w w' ->
             p = PosixPath.join UPLOAD_FOLDER (filename file) /\ d = stream file).
  { intros request file v v' o p d Hv Hrun Hin.
    rewrite (process_valid_effects request file v v' o Hv Hrun) in Hin.
    destruct (makedirs_error v _); [in_effects Hin|].
    destruct (save_error v _ _); in_effects Hin; now injection Hin. }
  assert (Hdir : forall request file w w' o dir,
             valid_upload request file ->
             process_sheet_music request w = (o, w') ->
             EvMakedirs dir ∈ effects w w' ->
             dir = "output/" +:+ next_job_id w).
  { intros request file v v' o dir Hv Hrun Hin.
    rewrite (process_valid_effects request file v v' o Hv Hrun) in Hin.
    apply elem_of_cons in Hin as [[=]|Hin].
    apply elem_of_cons in Hin as [Hin|Hin].
    - injection Hin as ->. apply join_output_relative, sep_free_relative.
      apply to_str_sep_free.
    - destruct (makedirs_error v _); [in_effects Hin|].
      destruct (save_error v _ _); in_effects Hin. }
  destruct (Hsave _ _ _ _ _ _ _ Hv1 Hrun1 Hs1) as [-> ->].
  destruct (Hsave _ _ _ _ _ _ _ Hv2 Hrun2 Hs2) as [-> ->].
  split_and!; [now rewrite Hname | reflexivity | reflexivity |].
  intros dir1 dir2 H1 H2.
  rewrite (Hdir _ _ _ _ _ _ Hv1 Hrun1 H1), (Hdir _ _ _ _ _ _ Hv2 Hrun2 H2).
  split; [apply append_inj_l | now intros ->].
Qed.

(** ** The further properties on sample inputs *)

Lemma success_needs_engine_success_song :
  exists file out err,
    valid_upload (upload "song.png") file
    /\ engine song_world (engine_command (filename file) (next_job_id song_world))
       = Exited 0 out err.
Proof.
  destruct (success_needs_engine_success (upload "song.png") song_world
              (snd (process_sheet_music (upload "song.png") song_world))
              (response_of (fst (process_sheet_music (upload "song.png") song_world))))
    as (file & out & err & Hv & _ & He).
  - vm_compute. reflexivity.
  - vm_compute. reflexivity.
  - exists file, out, err. auto.
Defined.

Lemma bad_request_only_when_rejected_txt :
  rejected_upload (upload "notes.txt")
  /\ snd (process_sheet_music (upload "notes.txt") song_world) = song_world.
Proof.
  apply (bad_request_only_when_rejected (upload "notes.txt") song_world
           (snd (process_sheet_music (upload "notes.txt") song_world))
           (response_of (fst (process_sheet_music (upload "notes.txt") song_world)))).
  - vm_compute. reflexivity.
  - vm_compute. reflexivity.
Defined.

Lemma error_field_iff_failure_staves :
  (status (response_of (fst (process_sheet_music (upload "song.png") failing_world)))
   = 200
   /\ json (response_of (fst (process_sheet_music (upload "song.png") failing_world)))
        !! "error" = None)
  \/ ((status (response_of (fst (process_sheet_music (upload "song.png") failing_world)))
       = 400
       \/ status (response_of (fst (process_sheet_music (upload "song.png") failing_world)))
          = 500)
      /\ is_Some
           (json (response_of (fst (process_sheet_music (upload "song.png") failing_world)))
              !! "error")).
Proof.
  apply (error_field_iff_failure (upload "song.png") failing_world
           (snd (process_sheet_music (upload "song.png") failing_world))).
  vm_compute. reflexivity.
Defined.

Lemma engine_runs_on_saved_upload_song :
  exists input_path data output_dir,
    engine_command "song.png" (next_job_id song_world)
    = [AUDIVERIS_PATH; "-batch"; "-run"; input_path; "-export"; "-output"; output_dir]
    /\ EvSave input_path data
         ∈ effects song_world (snd (process_sheet_music (upload "song.png") song_world)).
Proof.
  destruct (engine_runs_on_saved_upload (upload "song.png") song_world
              (snd (process_sheet_music (upload "song.png") song_world))
              (fst (process_sheet_music (upload "song.png") song_world))
              (engine_command "song.png" (next_job_id song_world)))
    as (p & d & dir & H1 & H2 & _).
  - apply surjective_pairing.
  - apply in_effects_run. vm_compute. reflexivity.
  - exists p, d, dir. auto.
Defined.

Lemma ordinary_name_base_song :
  allowed_file "scans/my.song.PNG" = Ok true
  /\ PosixPath.splitext "scans/my.song.PNG" = ("scans/my.song", ".PNG").
Proof.
  apply (ordinary_name_base "scans/" "my.song" "PNG").
  - right. now exists "scans".
  - reflexivity.
  - reflexivity.
  - change (PyStr.lower "PNG") with "png". unfold ALLOWED_EXTENSIONS. set_solver.
Defined.

Lemma dotted_name_base_pdf :
  allowed_file "..pdf" = Ok true /\ PosixPath.splitext "..pdf" = ("..pdf", "").
Proof.
  destruct (dotted_name_base "" "." "pdf") as [H1 H2].
  - now left.
  - reflexivity.
  - reflexivity.
  - reflexivity.
  - split; [exact H1 | exact H2].
Defined.

Lemma job_directory_under_output_song :
  confined OUTPUT_FOLDER "output/00010203-0405-4607-8809-0a0b0c0d0e0f" = true.
Proof.
  apply (job_directory_under_output (upload "song.png") song_world
           (snd (process_sheet_music (upload "song.png") song_world))
           (fst (process_sheet_music (upload "song.png") song_world))).
  - apply surjective_pairing.
  - apply (list_elem_of_lookup_2 _ 1%nat). vm_compute. reflexivity.
Defined.

Lemma response_paths_are_served_song :
  exists name,
    "/results/00010203-0405-4607-8809-0a0b0c0d0e0f/song.mxl"
    = "/results/" +:+ next_job_id song_world +:+ "/" +:+ name
    /\ send_result (next_job_id song_world +:+ "/" +:+ name) song_world
       = (Ok (served_path song_world (next_job_id song_world +:+ "/" +:+ name)),
          song_world).
Proof.
  destruct (response_paths_are_served
              (upload "song.png") (mkFile "song.png" [x25; x50; x44; x46])
              song_world (snd (process_sheet_music (upload "song.png") song_world))
              (response_of (fst (process_sheet_music (upload "song.png") song_world)))
              "xml" "/results/00010203-0405-4607-8809-0a0b0c0d0e0f/song.mxl"
              song_world)
    as (name & H1 & _ & _ & H2).
  - apply upload_valid. vm_compute. reflexivity.
  - reflexivity.
  - vm_compute. reflexivity.
  - vm_compute. reflexivity.
  - vm_compute. reflexivity.
  - exists name. split; [exact H1 | apply H2; reflexivity].
Defined.

Lemma same_name_same_input_path_score :
  "uploads/score.pdf" = "uploads/score.pdf"
  /\ (forall dir1 dir2,
         EvMakedirs dir1
           ∈ effects song_world (snd (process_sheet_music (upload "score.pdf") song_world)) ->
         EvMakedirs dir2
           ∈ effects (snd (process_sheet_music (upload "score.pdf") song_world))
               (snd (process_sheet_music (upload "score.pdf")
                       (snd (process_sheet_music (upload "score.pdf") song_world)))) ->
         (dir1 = dir2
          <-> next_job_id song_world
              = next_job_id (snd (process_sheet_music (upload "score.pdf") song_world)))).
Proof.
  destruct (same_name_same_input_path
              (upload "score.pdf") (upload "score.pdf")
              (mkFile "score.pdf" [x25; x50; x44; x46])
              (mkFile "score.pdf" [x25; x50; x44; x46])
              song_world
              (snd (process_sheet_music (upload "score.pdf") song_world))
              (snd (process_sheet_music (upload "score.pdf")
                      (snd (process_sheet_music (upload "score.pdf") song_world))))
              (fst (process_sheet_music (upload "score.pdf") song_world))
              (fst (process_sheet_music (upload "score.pdf")
                      (snd (process_sheet_music (upload "score.pdf") song_world))))
              "uploads/score.pdf" "uploads/score.pdf"
              [x25; x50; x44; x46] [x25; x50; x44; x46])
    as (H1 & _ & _ & H2).
  - apply upload_valid. vm_compute. reflexivity.
  - apply upload_valid. vm_compute. reflexivity.
  - reflexivity.
  - apply surjective_pairing.
  - apply surjective_pairing.
  - apply (list_elem_of_lookup_2 _ 2%nat). vm_compute. reflexivity.
  - apply (list_elem_of_lookup_2 _ 2%nat). vm_compute. reflexivity.
  - split; [exact H1 | exact H2].
Defined.

Lemma allowed_file_spec_upper :
  allowed_file "score.PDF" = Ok true /\ allowed_file "score.JpEg" = Ok true.
Proof.
  destruct (allowed_file_spec "score") as (_ & _ & _ & _ & _ & _ & H).
  split.
  - apply (H "pdf" "PDF"); [now left|].
    repeat (constructor; [right; vm_compute; lia|]). constructor.
  - apply (H "jpeg" "JpEg"); [now right; right; right|].
    constructor; [right; vm_compute; lia|].
    constructor; [now left|].
    constructor; [right; vm_compute; lia|].
    constructor; [now left|]. constructor.
Defined.
